(** * Directory Monitor: a shallow embedding of [main.py]

    The service keeps two module-level globals, [dir_db] (directory name to
    snapshot, a snapshot mapping file path to SHA-256 hex digest) and
    [change_log], and exposes three handlers ([register_directory],
    [verify_changes], [list_files]) plus the watchdog callback
    [ChangeHandler.on_modified].

    Python values are modelled as follows.
    - [str] is [string]; paths are POSIX paths ([os.path] is [posixpath]).
    - [dict] is an association list in insertion order with unique keys:
      iteration order and [next(iter(d))] are observable in the source.
    - The globals are threaded through a state-and-exception monad; a raised
      exception keeps the mutations made before it, as in Python.
    - The file system and [hashlib.sha256] are an environment record: the
      handlers only ever query them. *)

From Stdlib Require Import List String Ascii ZArith Bool Lia.
From Stdlib Require Import Sorted Permutation.
Import ListNotations.
Local Open Scope string_scope.
Local Open Scope list_scope.

Set Implicit Arguments.

(* ================================================================= *)
(** ** Python built-ins used by the source *)

Module Py.

(** Start index of the slice [l[i:]] (and end index of [l[:i]]) for a
    sequence of length [len]: negative indices count from the end and
    everything is clamped to [0 .. len]. *)
Definition clamp_index (len : nat) (i : Z) : nat :=
  if (i <? 0)%Z then Z.to_nat (Z.max 0 (Z.of_nat len + i))
  else Nat.min (Z.to_nat i) len.

(** [l[i:]] *)
Definition slice_from {A} (i : Z) (l : list A) : list A :=
  skipn (clamp_index (List.length l) i) l.

(** [l[:i]] *)
Definition slice_to {A} (i : Z) (l : list A) : list A :=
  firstn (clamp_index (List.length l) i) l.

(** [s.rfind(c)] for a one-character [c]: the highest index holding [c],
    or [-1].  [i] is the index of the head of [s], [last] the best index
    seen so far. *)
Fixpoint rfind_from (c : ascii) (s : list ascii) (i last : Z) : Z :=
  match s with
  | [] => last
  | a :: s' => rfind_from c s' (i + 1)%Z (if Ascii.eqb a c then i else last)
  end.

Definition rfind (c : ascii) (s : list ascii) : Z := rfind_from c s 0%Z (-1)%Z.

(** Drop the leading run of [c]. *)
Fixpoint lstrip (c : ascii) (s : list ascii) : list ascii :=
  match s with
  | a :: s' => if Ascii.eqb a c then lstrip c s' else s
  | [] => []
  end.

(** [s.rstrip(c)] *)
Definition rstrip (c : ascii) (s : list ascii) : list ascii :=
  rev (lstrip c (rev s)).

(** [s == c * len(s)] *)
Definition all_char (c : ascii) (s : list ascii) : bool :=
  forallb (fun a => Ascii.eqb a c) s.

(** [s.split(sep)] for a one-character separator; never returns [[]]. *)
Fixpoint split (sep : ascii) (s : string) : list string :=
  match s with
  | EmptyString => [EmptyString]
  | String a s' =>
      if Ascii.eqb a sep then EmptyString :: split sep s'
      else match split sep s' with
           | c :: cs => String a c :: cs
           | [] => [String a EmptyString]
           end
  end.

(** [s.startswith(p)] *)
Definition startswith (s p : string) : bool := String.prefix p s.

(** [s.endswith(p)] *)
Definition endswith (s p : string) : bool :=
  let ls := String.length s in
  let lp := String.length p in
  (lp <=? ls)%nat && String.eqb (String.substring (ls - lp) lp s) p.

(** [s.endswith((p1, ..., pn))] *)
Definition endswith_any (s : string) (ps : list string) : bool :=
  existsb (endswith s) ps.

(** Truthiness of a [str]. *)
Definition truthy (s : string) : bool :=
  match s with EmptyString => false | _ => true end.

(** [sorted(l, key=key)] on string keys.  Python's sort is stable and
    compares [str] by code point; a stable insertion sort computes the
    same list. *)
Section Sorted.
Context {A : Type} (key : A -> string).

Fixpoint insert_by (x : A) (l : list A) : list A :=
  match l with
  | [] => [x]
  | y :: l' => if String.leb (key x) (key y) then x :: l
               else y :: insert_by x l'
  end.

Definition sorted (l : list A) : list A := fold_right insert_by [] l.
End Sorted.

End Py.

(* ================================================================= *)
(** ** [os.path] on POSIX *)

Module posixpath.

Definition sep : ascii := "/"%char.

(** [basename(p)]: [i = p.rfind('/') + 1; return p[i:]] *)
Definition basename (p : string) : string :=
  let l := list_ascii_of_string p in
  let i := (Py.rfind sep l + 1)%Z in
  string_of_list_ascii (Py.slice_from i l).

(** [dirname(p)]:
    [i = p.rfind('/') + 1; head = p[:i];
     if head and head != '/' * len(head): head = head.rstrip('/')] *)
Definition dirname (p : string) : string :=
  let l := list_ascii_of_string p in
  let i := (Py.rfind sep l + 1)%Z in
  let head := Py.slice_to i l in
  string_of_list_ascii
    (match head with
     | [] => head
     | _ => if negb (Py.all_char sep head) then Py.rstrip sep head else head
     end).

(** One turn of the component loop of [normpath]. [initial_slashes] is
    the number of leading slashes kept (0, 1 or 2). *)
Definition normpath_step (initial_slashes : nat)
    (new_comps : list string) (comp : string) : list string :=
  if String.eqb comp "" || String.eqb comp "." then new_comps
  else if negb (String.eqb comp "..")
          || (Nat.eqb initial_slashes 0
              && match new_comps with [] => true | _ => false end)
          || match new_comps with
             | [] => false
             | _ => String.eqb (last new_comps "") ".."
             end
  then new_comps ++ [comp]
  else match new_comps with
       | [] => new_comps
       | _ => removelast new_comps
       end.

(** [normpath(path)] *)
Definition normpath (path : string) : string :=
  if String.eqb path "" then "."
  else
    let initial_slashes :=
      if Py.startswith path "/" then
        if Py.startswith path "//" && negb (Py.startswith path "///")
        then 2 else 1
      else 0 in
    let comps := fold_left (normpath_step initial_slashes)
                           (Py.split sep path) [] in
    let path' := String.concat "/" comps in
    let path' :=
      match initial_slashes with
      | 0 => path'
      | 1 => ("/" ++ path')%string
      | _ => ("//" ++ path')%string
      end in
    if Py.truthy path' then path' else ".".

End posixpath.

Import posixpath.

(* ================================================================= *)
(** ** [dict]: insertion-ordered, keys unique *)

Definition dict (V : Type) : Type := list (string * V).

Section Dict.
Context {V : Type}.

(** [d.get(k)] *)
Fixpoint dict_get (d : dict V) (k : string) : option V :=
  match d with
  | [] => None
  | (k', v) :: d' => if String.eqb k' k then Some v else dict_get d' k
  end.

(** [k in d] *)
Definition dict_mem (k : string) (d : dict V) : bool :=
  match dict_get d k with Some _ => true | None => false end.

(** [d[k] = v]: an existing key keeps its place, a new one goes last. *)
Fixpoint dict_set (d : dict V) (k : string) (v : V) : dict V :=
  match d with
  | [] => [(k, v)]
  | (k', v') :: d' =>
      if String.eqb k' k then (k', v) :: d' else (k', v') :: dict_set d' k v
  end.

(** [list(d)]: the keys in iteration order. *)
Definition dict_keys (d : dict V) : list string := map fst d.

(** [next(iter(d), None)] *)
Definition dict_first_key (d : dict V) : option string :=
  match d with
  | [] => None
  | (k, _) :: _ => Some k
  end.

(** Truthiness of a [dict]. *)
Definition dict_truthy (d : dict V) : bool :=
  match d with [] => false | _ => true end.

(** Keys are pairwise distinct. *)
Definition dict_wf (d : dict V) : Prop := NoDup (dict_keys d).
End Dict.

(* ================================================================= *)
(** ** Exceptions, global state and the handler monad *)

Inductive exn : Type :=
| HTTPException (status_code : Z) (detail : string)
| OSError (strerror : string)
| KeyError (key : string).

(** [str(e)] as interpolated by the [print] calls.  Only [OSError] can
    reach them; the other two cases are never raised inside a [try]. *)
Definition exn_str (e : exn) : string :=
  match e with
  | OSError msg => msg
  | KeyError k => ("'" ++ k ++ "'")%string
  | HTTPException _ detail => detail
  end.

Inductive result (A : Type) : Type :=
| Return (a : A)
| Raise (e : exn).
Arguments Return {A} a.
Arguments Raise {A} e.

(** The module-level globals.  [observer] is the list of roots for which a
    [ChangeHandler] has been scheduled (one entry per [schedule] call);
    [stdout] is what [print] has written.  The handlers run after the
    [startup] hook, so [observer] is never [None] for them. *)
Record State : Type := mkState {
  dir_db : dict (dict string);
  change_log : list string;
  observer : list string;
  stdout : list string
}.

(** The globals as the module body and [start_monitoring] leave them. *)
Definition initial_state : State :=
  {| dir_db := []; change_log := []; observer := []; stdout := [] |}.

Definition M (A : Type) : Type := State -> result A * State.

Definition ret {A} (a : A) : M A := fun s => (Return a, s).

Definition bind {A B} (m : M A) (k : A -> M B) : M B :=
  fun s => match m s with
           | (Return a, s') => k a s'
           | (Raise e, s') => (Raise e, s')
           end.

Definition raise {A} (e : exn) : M A := fun s => (Raise e, s).

Definition lift {A} (r : result A) : M A := fun s => (r, s).

(** [try: body  except Exception as e: handler(e)] *)
Definition try_except {A} (body : M A) (handler : exn -> M A) : M A :=
  fun s => match body s with
           | (Return a, s') => (Return a, s')
           | (Raise e, s') => handler e s'
           end.

Declare Scope monad_scope.
Delimit Scope monad_scope with monad.
Notation "x <- m ;; k" := (bind m (fun x => k))
  (at level 61, m at next level, right associativity) : monad_scope.
Notation "m ;; k" := (bind m (fun _ => k))
  (at level 61, right associativity) : monad_scope.
Local Open Scope monad_scope.

(** [for x in l: acc = body(acc, x)] with the loop's local variables
    gathered in [acc]. *)
Fixpoint for_in {A S} (l : list A) (acc : S) (body : S -> A -> M S) : M S :=
  match l with
  | [] => ret acc
  | x :: l' => acc' <- body acc x ;; for_in l' acc' body
  end.

(** [dir_name in dir_db] *)
Definition dir_db_contains (dir_name : string) : M bool :=
  fun s => (Return (dict_mem dir_name (dir_db s)), s).

(** [dir_db[dir_name]] *)
Definition dir_db_getitem (dir_name : string) : M (dict string) :=
  fun s => match dict_get (dir_db s) dir_name with
           | Some snapshot => (Return snapshot, s)
           | None => (Raise (KeyError dir_name), s)
           end.

(** [dir_db[dir_name] = snapshot] *)
Definition dir_db_setitem (dir_name : string) (snapshot : dict string) : M unit :=
  fun s => (Return tt,
            {| dir_db := dict_set (dir_db s) dir_name snapshot;
               change_log := change_log s;
               observer := observer s;
               stdout := stdout s |}).

(** [dir_db[dir_name][filepath] = h] with [h] already evaluated: the
    subscript [dir_db[dir_name]] is looked up, then the entry is stored
    into that (shared) snapshot object. *)
Definition snapshot_setitem (dir_name filepath h : string) : M unit :=
  snapshot <- dir_db_getitem dir_name ;;
  dir_db_setitem dir_name (dict_set snapshot filepath h).

(** [change_log.append(entry)] *)
Definition change_log_append (entry : string) : M unit :=
  fun s => (Return tt,
            {| dir_db := dir_db s;
               change_log := change_log s ++ [entry];
               observer := observer s;
               stdout := stdout s |}).

(** [print(line)] *)
Definition print (line : string) : M unit :=
  fun s => (Return tt,
            {| dir_db := dir_db s;
               change_log := change_log s;
               observer := observer s;
               stdout := stdout s ++ [line] |}).

(** [observer.schedule(ChangeHandler(), dir_path, recursive=True)] *)
Definition observer_schedule (dir_path : string) : M unit :=
  fun s => (Return tt,
            {| dir_db := dir_db s;
               change_log := change_log s;
               observer := observer s ++ [dir_path];
               stdout := stdout s |}).

(* ================================================================= *)
(** ** The environment: file system and [hashlib] *)

(** The two fields of [os.stat_result] the source reads.  [st_mtime] is a
    timestamp the handler only copies into its answer. *)
Record stat_result : Type := { st_size : Z; st_mtime : Z }.

Record Env : Type := {
  (** [hashlib.sha256(message).hexdigest()] *)
  sha256_hexdigest : list Byte.byte -> string;
  (** [open(p, "rb")] followed by reads up to end of file: the content,
      or the message of the [OSError] that [open] or a [read] raises. *)
  read_bytes : string -> string + list Byte.byte;
  (** [os.path.isdir(p)] *)
  isdir : string -> bool;
  (** [[str(q) for q in Path(p).rglob('*')]]; a [p] that is not a
      directory yields nothing, and [Path("")] is the current directory. *)
  rglob : string -> list string;
  (** [Path(p).is_file()]: the answer, or the message of the [OSError] it
      raises.  [is_file] answers [False] when [stat] fails with ENOENT,
      ENOTDIR, EBADF or ELOOP and re-raises every other error (EACCES
      on an entry of a directory that may be listed but not searched). *)
  is_file : string -> string + bool;
  (** [os.stat(p)], or the message of the [OSError] it raises. *)
  stat : string -> string + stat_result
}.

(** [f.read(8192)] *)
Definition chunk_size : nat := Z.to_nat 8192.

(** [while chunk := f.read(8192): sha256.update(chunk)].  [f] is what is
    left to read, [sha256] the bytes fed to the hasher so far.  [None]
    when [fuel] turns do not reach end of file. *)
Fixpoint read_loop (fuel : nat) (f sha256 : list Byte.byte)
    : option (list Byte.byte) :=
  match fuel with
  | 0 => None
  | S fuel' =>
      match firstn chunk_size f with
      | [] => Some sha256
      | chunk => read_loop fuel' (skipn chunk_size f) (sha256 ++ chunk)
      end
  end.

(** [hash_file(filepath)].  The loop is given one turn more than the file
    has bytes, which always suffices ([hash_file_digest] below), so the
    last branch is never taken. *)
Definition hash_file (env : Env) (filepath : string) : result string :=
  match read_bytes env filepath with
  | inl msg => Raise (OSError msg)
  | inr content =>
      match read_loop (S (List.length content)) content [] with
      | Some message => Return (sha256_hexdigest env message)
      | None => Raise (OSError "read loop did not terminate")
      end
  end.

(** [os.stat(filepath)] *)
Definition os_stat (env : Env) (filepath : string) : result stat_result :=
  match stat env filepath with
  | inl msg => Raise (OSError msg)
  | inr st => Return st
  end.

(** [filepath.is_file()] *)
Definition path_is_file (env : Env) (filepath : string) : result bool :=
  match is_file env filepath with
  | inl msg => Raise (OSError msg)
  | inr b => Return b
  end.

(* ================================================================= *)
(** ** The watchdog callback *)

(** The two attributes of a [FileSystemEvent] the callback reads. *)
Record Event : Type := { is_directory : bool; src_path : string }.

(** [stored != new_hash] where [stored] comes from [dict.get]: [None]
    differs from every string. *)
Definition get_differs (stored : option string) (new_hash : string) : bool :=
  match stored with
  | Some h => negb (String.eqb h new_hash)
  | None => true
  end.

(** [ChangeHandler.on_modified(self, event)] *)
Definition on_modified (env : Env) (event : Event) : M unit :=
  if negb (is_directory event) then
    let filepath := src_path event in
    let dir_name := basename (dirname filepath) in
    registered <- dir_db_contains dir_name ;;
    if (registered : bool) then
      new_hash <- lift (hash_file env filepath) ;;
      snapshot <- dir_db_getitem dir_name ;;
      if get_differs (dict_get snapshot filepath) new_hash then
        change_log_append ("MODIFIED: " ++ filepath)%string ;;
        snapshot_setitem dir_name filepath new_hash
      else ret tt
    else ret tt
  else ret tt.

(* ================================================================= *)
(** ** [POST /register/] *)

Module RegisterResponse.
Record t : Type := {
  status : string;
  directory : string;
  files_registered : nat
}.
End RegisterResponse.

(** The body of the scan loop of [register_directory]: the entry is
    written straight into [dir_db[dir_name]].  The test
    [filepath.is_file()] stands outside the [try]: what it raises leaves
    the loop and the handler. *)
Definition register_scan_body (env : Env) (dir_name : string)
    (_ : unit) (filepath : string) : M unit :=
  regular <- lift (path_is_file env filepath) ;;
  if (regular : bool) then
    try_except
      (h <- lift (hash_file env filepath) ;;
       snapshot_setitem dir_name filepath h)
      (fun e => print ("Skipping " ++ filepath ++ ": " ++ exn_str e)%string)
  else ret tt.

(** [register_directory(dir_path)] *)
Definition register_directory (env : Env) (dir_path : string)
    : M RegisterResponse.t :=
  let dir_path := normpath dir_path in
  if negb (isdir env dir_path) then
    raise (HTTPException 400 "Invalid directory path")
  else
    let dir_name := basename dir_path in
    dir_db_setitem dir_name [] ;;
    for_in (rglob env dir_path) tt (register_scan_body env dir_name) ;;
    observer_schedule dir_path ;;
    snapshot <- dir_db_getitem dir_name ;;
    ret {| RegisterResponse.status := "success";
           RegisterResponse.directory := dir_path;
           RegisterResponse.files_registered := List.length snapshot |}.

(* ================================================================= *)
(** ** [GET /verify/{dir_name}] *)

Module VerifyResponse.
Record t : Type := {
  directory : string;
  added : list string;
  deleted : list string;
  modified : list string;
  recent_changes : list string
}.
End VerifyResponse.

(** The directory [verify_changes] rescans:
    [dir_path = next(iter(original)) if original else ""], then
    [dir_path = os.path.dirname(dir_path) if dir_path else ""]. *)
Definition verify_dir_path (original : dict string) : string :=
  let dir_path :=
    if dict_truthy original then
      match dict_first_key original with Some k => k | None => "" end
    else "" in
  if Py.truthy dir_path then dirname dir_path else "".

(** The body of the rescan loop of [verify_changes]: the entry goes into
    the local [current].  As in registration, [filepath.is_file()] stands
    outside the [try]. *)
Definition verify_scan_body (env : Env)
    (current : dict string) (filepath : string) : M (dict string) :=
  regular <- lift (path_is_file env filepath) ;;
  if (regular : bool) then
    try_except
      (h <- lift (hash_file env filepath) ;;
       ret (dict_set current filepath h))
      (fun e => print ("Skipping " ++ filepath ++ ": " ++ exn_str e)%string ;;
                ret current)
  else ret current.

(** [current[f] != original[f]].  It is evaluated only for [f] drawn from
    [current] and found in [original], so neither subscript raises. *)
Definition getitem_differs (current original : dict string) (f : string) : bool :=
  match dict_get current f, dict_get original f with
  | Some c, Some o => negb (String.eqb c o)
  | _, _ => false
  end.

(** [[f for f in current if f not in original]] *)
Definition added_of (original current : dict string) : list string :=
  filter (fun f => negb (dict_mem f original)) (dict_keys current).

(** [[f for f in original if f not in current]] *)
Definition deleted_of (original current : dict string) : list string :=
  filter (fun f => negb (dict_mem f current)) (dict_keys original).

(** [[f for f in current if f in original and current[f] != original[f]]] *)
Definition modified_of (original current : dict string) : list string :=
  filter (fun f => dict_mem f original && getitem_differs current original f)
         (dict_keys current).

(** [verify_changes(dir_name)] *)
Definition verify_changes (env : Env) (dir_name : string)
    : M VerifyResponse.t :=
  registered <- dir_db_contains dir_name ;;
  if negb registered then
    raise (HTTPException 404 "Directory not registered")
  else
    original <- dir_db_getitem dir_name ;;
    let dir_path := verify_dir_path original in
    current <- for_in (rglob env dir_path) [] (verify_scan_body env) ;;
    let added := added_of original current in
    let deleted := deleted_of original current in
    let modified := modified_of original current in
    dir_db_setitem dir_name current ;;
    log <- (fun s => (Return (change_log s), s)) ;;
    ret {| VerifyResponse.directory := dir_path;
           VerifyResponse.added := added;
           VerifyResponse.deleted := deleted;
           VerifyResponse.modified := modified;
           VerifyResponse.recent_changes := Py.slice_from (-10) log |}.

(* ================================================================= *)
(** ** [GET /list/{dir_name}] *)

Module FileDetail.
Record t : Type := {
  filename : string;
  path : string;
  hash : string;
  size_bytes : Z;
  last_modified : Z;
  is_text : bool
}.
End FileDetail.

(** The two shapes of answer [list_files] returns. *)
Inductive ListResponse : Type :=
| ListError (error : string)
| ListOk (directory : string) (total_files : nat) (files : list FileDetail.t).

(** The body of the loop over [dir_db[dir_name].items()]. *)
Definition list_body (env : Env) (file_details : list FileDetail.t)
    (item : string * string) : M (list FileDetail.t) :=
  let (filepath, filehash) := item in
  try_except
    (file_stats <- lift (os_stat env filepath) ;;
     ret (file_details ++
          [ {| FileDetail.filename := basename filepath;
               FileDetail.path := filepath;
               FileDetail.hash := filehash;
               FileDetail.size_bytes := st_size file_stats;
               FileDetail.last_modified := st_mtime file_stats;
               FileDetail.is_text :=
                 Py.endswith_any filepath [".txt"; ".csv"; ".json"; ".xml"] |} ]))
    (fun e => print ("Skipping " ++ filepath ++ ": " ++ exn_str e)%string ;;
              ret file_details).

(** [list_files(dir_name)] *)
Definition list_files (env : Env) (dir_name : string) : M ListResponse :=
  registered <- dir_db_contains dir_name ;;
  if negb registered then
    raise (HTTPException 404 "Directory not registered")
  else
    snapshot <- dir_db_getitem dir_name ;;
    let sample_file := dict_first_key snapshot in
    let dir_path :=
      match sample_file with
      | Some f => if Py.truthy f then dirname f else ""
      | None => ""
      end in
    if negb (Py.truthy dir_path) then
      ret (ListError "No files found in directory")
    else
      file_details <- for_in snapshot [] (list_body env) ;;
      ret (ListOk dir_path (List.length file_details)
                  (Py.sorted FileDetail.filename file_details)).

(* ================================================================= *)
(** ** What the scan loops compute

    Both [register_directory] and [verify_changes] walk a listing and keep
    the files that hash, up to the first entry on which [is_file()]
    raises.  [until_is_file_error] splits a listing there; [scan] and
    [scan_log] are the walk over the entries before it, as pure
    functions.  [verify_scan_loop] and [register_scan_loop] below relate
    them to the loops. *)

(** [is_file()] answered [True]. *)
Definition is_regular (env : Env) (p : string) : bool :=
  match is_file env p with
  | inr b => b
  | inl _ => false
  end.

(** The entries of a listing before the first one on which [is_file()]
    raises, and the message of that error if there is one. *)
Fixpoint until_is_file_error (env : Env) (paths : list string)
    : list string * option string :=
  match paths with
  | [] => ([], None)
  | p :: rest =>
      match is_file env p with
      | inl msg => ([], Some msg)
      | inr _ =>
          let (before, err) := until_is_file_error env rest in
          (p :: before, err)
      end
  end.

(** The outcome of a scan loop over [paths]: the value [v] when
    [is_file()] raises on no entry, its [OSError] otherwise. *)
Definition scan_outcome {A} (env : Env) (paths : list string) (v : A) : result A :=
  match snd (until_is_file_error env paths) with
  | None => Return v
  | Some msg => Raise (OSError msg)
  end.

(** [is_file()] raises on no entry of the listing. *)
Definition listing_ok (env : Env) (paths : list string) : bool :=
  forallb (fun p => match is_file env p with inr _ => true | inl _ => false end)
          paths.

(** A regular file whose fingerprinting succeeds. *)
Definition readable (env : Env) (p : string) : bool :=
  is_regular env p &&
  match hash_file env p with Return _ => true | Raise _ => false end.

(** A regular file whose fingerprinting raises. *)
Definition unreadable (env : Env) (p : string) : bool :=
  is_regular env p &&
  match hash_file env p with Return _ => false | Raise _ => true end.

Fixpoint scan (env : Env) (paths : list string) (acc : dict string) : dict string :=
  match paths with
  | [] => acc
  | p :: rest =>
      if is_regular env p then
        match hash_file env p with
        | Return h => scan env rest (dict_set acc p h)
        | Raise _ => scan env rest acc
        end
      else scan env rest acc
  end.

Fixpoint scan_log (env : Env) (paths : list string) : list string :=
  match paths with
  | [] => []
  | p :: rest =>
      if is_regular env p then
        match hash_file env p with
        | Return _ => scan_log env rest
        | Raise e =>
            ("Skipping " ++ p ++ ": " ++ exn_str e)%string :: scan_log env rest
        end
      else scan_log env rest
  end.

(** The entry [list_files] appends for a snapshot item whose [os.stat]
    succeeded. *)
Definition file_detail (filepath filehash : string) (file_stats : stat_result)
    : FileDetail.t :=
  {| FileDetail.filename := basename filepath;
     FileDetail.path := filepath;
     FileDetail.hash := filehash;
     FileDetail.size_bytes := st_size file_stats;
     FileDetail.last_modified := st_mtime file_stats;
     FileDetail.is_text :=
       Py.endswith_any filepath [".txt"; ".csv"; ".json"; ".xml"] |}.

(** What the loop of [list_files] collects, as a pure function of the
    snapshot items: one entry per item that can be stat-ed, in snapshot
    order ([list_loop] below relates it to the loop). *)
Fixpoint list_details (env : Env) (items : dict string) : list FileDetail.t :=
  match items with
  | [] => []
  | (filepath, filehash) :: rest =>
      match stat env filepath with
      | inr file_stats =>
          file_detail filepath filehash file_stats :: list_details env rest
      | inl _ => list_details env rest
      end
  end.

(** What the loop of [list_files] prints. *)
Fixpoint list_log (env : Env) (items : dict string) : list string :=
  match items with
  | [] => []
  | (filepath, _) :: rest =>
      match stat env filepath with
      | inr _ => list_log env rest
      | inl msg =>
          ("Skipping " ++ filepath ++ ": " ++ msg)%string :: list_log env rest
      end
  end.

(** [a] sorts no later than [b] by file name. *)
Definition filename_le (a b : FileDetail.t) : Prop :=
  String.leb (FileDetail.filename a) (FileDetail.filename b) = true.

(** [s] after [lines] have been printed. *)
Definition printed (s : State) (lines : list string) : State :=
  {| dir_db := dir_db s;
     change_log := change_log s;
     observer := observer s;
     stdout := stdout s ++ lines |}.

(** Two snapshots that are the same mapping, whatever their order. *)
Definition same_mapping (d1 d2 : dict string) : Prop :=
  forall p, dict_get d1 p = dict_get d2 p.

(** The representation invariant of the globals: [dir_db] and every
    snapshot in it are dictionaries, i.e. have no repeated key. *)
Definition state_wf (s : State) : Prop :=
  dict_wf (dir_db s)
  /\ forall dir_name snapshot,
       dict_get (dir_db s) dir_name = Some snapshot -> dict_wf snapshot.

(** No separator occurs in [s]. *)
Definition slash_free (s : string) : Prop :=
  ~ In sep (list_ascii_of_string s).

(* ================================================================= *)
(** ** Worked environments *)

(** A stand-in for SHA-256 in the worked examples: the digest of a
    message is the message itself, read as a string. *)
Definition demo_digest (message : list Byte.byte) : string :=
  string_of_list_byte message.

(** A file system given by its directories, the listing [rglob] returns
    for each root, and its regular files with their content (or the error
    reading them raises). *)
Definition demo_env (dirs : list string) (listing : dict (list string))
    (files : dict (string + list Byte.byte)) : Env :=
  {| sha256_hexdigest := demo_digest;
     read_bytes := fun p =>
       match dict_get files p with
       | Some r => r
       | None => inl "No such file or directory"
       end;
     isdir := fun p => existsb (String.eqb p) dirs;
     rglob := fun p =>
       match dict_get listing p with Some l => l | None => [] end;
     is_file := fun p => inr (dict_mem p files);
     stat := fun p =>
       match dict_get files p with
       | Some (inr content) =>
           inr {| st_size := Z.of_nat (List.length content); st_mtime := 0%Z |}
       | Some (inl _) => inr {| st_size := 0%Z; st_mtime := 0%Z |}
       | None => inl "No such file or directory"
       end |}.

(** [/tmp/proj] holds [a.txt], [b.bin] and a file that cannot be opened. *)
Definition env_proj (a_txt : string) : Env :=
  demo_env ["/tmp/proj"]
    [("/tmp/proj", ["/tmp/proj/a.txt"; "/tmp/proj/b.bin"; "/tmp/proj/locked.dat"])]
    [("/tmp/proj/a.txt", inr (list_byte_of_string a_txt));
     ("/tmp/proj/b.bin", inr (list_byte_of_string "GIF89a"));
     ("/tmp/proj/locked.dat", inl "Permission denied")].

(** [/tmp/proj] once [a.txt] holds "y" and [b.bin] has been deleted. *)
Definition env_proj_without_b : Env :=
  demo_env ["/tmp/proj"]
    [("/tmp/proj", ["/tmp/proj/a.txt"; "/tmp/proj/locked.dat"])]
    [("/tmp/proj/a.txt", inr (list_byte_of_string "y"));
     ("/tmp/proj/locked.dat", inl "Permission denied")].

(** [/srv/empty] is an empty directory; the current directory of the
    process holds [notes.txt]. *)
Definition env_empty_root : Env :=
  demo_env ["/srv/empty"]
    [("/srv/empty", []); ("", ["notes.txt"])]
    [("notes.txt", inr (list_byte_of_string "todo"))].

(** [/tmp/tree] has no file of its own, only the two subdirectories [a]
    and [b] with one file each. *)
Definition env_tree : Env :=
  demo_env ["/tmp/tree"; "/tmp/tree/a"; "/tmp/tree/b"]
    [("/tmp/tree", ["/tmp/tree/a"; "/tmp/tree/b";
                    "/tmp/tree/a/x.txt"; "/tmp/tree/b/y.txt"]);
     ("/tmp/tree/a", ["/tmp/tree/a/x.txt"]);
     ("/tmp/tree/b", ["/tmp/tree/b/y.txt"])]
    [("/tmp/tree/a/x.txt", inr (list_byte_of_string "x"));
     ("/tmp/tree/b/y.txt", inr (list_byte_of_string "y"))].

(** [/srv/empty] is an empty directory; the current directory of the
    process has no file of its own, only the subdirectories [docs] and
    [src] with one file each. *)
Definition env_cwd_tree : Env :=
  demo_env ["/srv/empty"; "docs"; "src"]
    [("/srv/empty", []);
     ("", ["docs"; "src"; "docs/a.md"; "src/b.py"]);
     ("docs", ["docs/a.md"]);
     ("src", ["src/b.py"])]
    [("docs/a.md", inr (list_byte_of_string "# a"));
     ("src/b.py", inr (list_byte_of_string "pass"))].

(** Two directories with the same base name, one file each. *)
Definition env_two_proj : Env :=
  demo_env ["/a/proj"; "/b/proj"]
    [("/a/proj", ["/a/proj/one.txt"]); ("/b/proj", ["/b/proj/two.txt"])]
    [("/a/proj/one.txt", inr (list_byte_of_string "1"));
     ("/b/proj/two.txt", inr (list_byte_of_string "2"))].

(** [/tmp/proj] after [b.bin] has become unreadable and [c.txt] has been
    created; [a.txt] holds [a_txt]. *)
Definition env_proj_changed (a_txt : string) : Env :=
  demo_env ["/tmp/proj"]
    [("/tmp/proj", ["/tmp/proj/a.txt"; "/tmp/proj/b.bin"; "/tmp/proj/c.txt"])]
    [("/tmp/proj/a.txt", inr (list_byte_of_string a_txt));
     ("/tmp/proj/b.bin", inl "Permission denied");
     ("/tmp/proj/c.txt", inr (list_byte_of_string "new"))].

(** [env] with [Path.is_file()] raising "Permission denied" on the
    paths in [denied]: files of a directory that may be listed but not
    searched. *)
Definition stat_denied (env : Env) (denied : list string) : Env :=
  {| sha256_hexdigest := sha256_hexdigest env;
     read_bytes := fun p =>
       if existsb (String.eqb p) denied then inl "Permission denied"
       else read_bytes env p;
     isdir := isdir env;
     rglob := rglob env;
     is_file := fun p =>
       if existsb (String.eqb p) denied then inl "Permission denied"
       else is_file env p;
     stat := fun p =>
       if existsb (String.eqb p) denied then inl "Permission denied"
       else stat env p |}.

(** [/tmp/proj] holds [a.txt], [b.bin] and the subdirectory [private],
    which may be listed but not searched, so that [key.pem] in it cannot
    be stat-ed or opened. *)
Definition env_proj_private : Env :=
  stat_denied
    (demo_env ["/tmp/proj"; "/tmp/proj/private"]
       [("/tmp/proj", ["/tmp/proj/a.txt"; "/tmp/proj/b.bin";
                       "/tmp/proj/private"; "/tmp/proj/private/key.pem"])]
       [("/tmp/proj/a.txt", inr (list_byte_of_string "x"));
        ("/tmp/proj/b.bin", inr (list_byte_of_string "GIF89a"))])
    ["/tmp/proj/private/key.pem"].

(** [env_tree] after [/tmp/tree/a/x.txt] has been rewritten. *)
Definition env_tree_changed : Env :=
  demo_env ["/tmp/tree"; "/tmp/tree/a"; "/tmp/tree/b"]
    [("/tmp/tree", ["/tmp/tree/a"; "/tmp/tree/b";
                    "/tmp/tree/a/x.txt"; "/tmp/tree/b/y.txt"]);
     ("/tmp/tree/a", ["/tmp/tree/a/x.txt"]);
     ("/tmp/tree/b", ["/tmp/tree/b/y.txt"])]
    [("/tmp/tree/a/x.txt", inr (list_byte_of_string "x2"));
     ("/tmp/tree/b/y.txt", inr (list_byte_of_string "y"))].

(** The state a handler leaves behind. *)
Definition exec {A} (m : M A) (s : State) : State := snd (m s).

(** The globals after registering [/tmp/proj] in [env_proj "x"]. *)
Definition state_proj : State :=
  exec (register_directory (env_proj "x") "/tmp/proj") initial_state.

(** The globals after registering [/srv/empty]. *)
Definition state_empty_root : State :=
  exec (register_directory env_empty_root "/srv/empty") initial_state.

(** The globals after registering [/srv/empty] and verifying it once:
    the snapshot of [empty] holds the relative path [notes.txt]. *)
Definition state_relative : State :=
  exec (verify_changes env_empty_root "empty") state_empty_root.

(** The globals after registering [/tmp/tree]. *)
Definition state_tree : State :=
  exec (register_directory env_tree "/tmp/tree") initial_state.

(** A catalog holding [proj] after the watcher has logged twelve
    modifications. *)
Definition state_busy : State :=
  {| dir_db := [("proj", [("/tmp/proj/a.txt", "x")])];
     change_log :=
       ["MODIFIED: /tmp/proj/f01"; "MODIFIED: /tmp/proj/f02";
        "MODIFIED: /tmp/proj/f03"; "MODIFIED: /tmp/proj/f04";
        "MODIFIED: /tmp/proj/f05"; "MODIFIED: /tmp/proj/f06";
        "MODIFIED: /tmp/proj/f07"; "MODIFIED: /tmp/proj/f08";
        "MODIFIED: /tmp/proj/f09"; "MODIFIED: /tmp/proj/f10";
        "MODIFIED: /tmp/proj/f11"; "MODIFIED: /tmp/proj/f12"];
     observer := ["/tmp/proj"];
     stdout := [] |}.

(* ================================================================= *)
(** * Properties *)

(** ** Worked examples *)

Example basename_ex1 : basename "/tmp/proj/a.txt" = "a.txt".
Proof. reflexivity. Qed.
Example basename_ex2 : basename "a.txt" = "a.txt".
Proof. reflexivity. Qed.
Example basename_ex3 : basename "/tmp/proj/" = "".
Proof. reflexivity. Qed.
Example dirname_ex1 : dirname "/tmp/proj/a.txt" = "/tmp/proj".
Proof. reflexivity. Qed.
Example dirname_ex2 : dirname "a.txt" = "".
Proof. reflexivity. Qed.
Example dirname_ex3 : dirname "/a.txt" = "/".
Proof. reflexivity. Qed.
Example dirname_ex4 : dirname "//a" = "//".
Proof. reflexivity. Qed.
Example dirname_ex5 : dirname "/tmp//proj//a" = "/tmp//proj".
Proof. reflexivity. Qed.
Example normpath_ex1 : normpath "/tmp/proj/" = "/tmp/proj".
Proof. reflexivity. Qed.
Example normpath_ex2 : normpath "/tmp/./x/../proj" = "/tmp/proj".
Proof. reflexivity. Qed.
Example normpath_ex3 : normpath "../a//b/.." = "../a".
Proof. reflexivity. Qed.
Example normpath_ex4 : normpath "/.." = "/".
Proof. reflexivity. Qed.
Example normpath_ex5 : normpath "//x" = "//x".
Proof. reflexivity. Qed.
Example normpath_ex6 : normpath "///x" = "/x".
Proof. reflexivity. Qed.
Example normpath_ex7 : normpath "a/.." = ".".
Proof. reflexivity. Qed.
Example slice_ex1 : Py.slice_from (-10) [1;2;3] = [1;2;3].
Proof. reflexivity. Qed.
Example slice_ex2 : Py.slice_from (-2) [1;2;3] = [2;3].
Proof. reflexivity. Qed.
Example endswith_ex : Py.endswith_any "a.json" [".txt"; ".csv"; ".json"; ".xml"] = true.
Proof. reflexivity. Qed.
Example sorted_ex : Py.sorted fst [("b",1); ("a",2); ("b",3); ("a",4)]
                    = [("a",2); ("a",4); ("b",1); ("b",3)].
Proof. reflexivity. Qed.

(** The scenario of the specification: register [/tmp/proj], change
    [a.txt], verify, delete [b.bin], verify again. *)
Example scenario_register :
  register_directory (env_proj "x") "/tmp/proj" initial_state
  = (Return {| RegisterResponse.status := "success";
               RegisterResponse.directory := "/tmp/proj";
               RegisterResponse.files_registered := 2 |},
     {| dir_db := [("proj", [("/tmp/proj/a.txt", "x");
                             ("/tmp/proj/b.bin", "GIF89a")])];
        change_log := [];
        observer := ["/tmp/proj"];
        stdout := ["Skipping /tmp/proj/locked.dat: Permission denied"] |}).
Proof. vm_compute. reflexivity. Qed.

Example scenario_verify_after_change :
  fst (verify_changes (env_proj "y") "proj" state_proj)
  = Return {| VerifyResponse.directory := "/tmp/proj";
              VerifyResponse.added := [];
              VerifyResponse.deleted := [];
              VerifyResponse.modified := ["/tmp/proj/a.txt"];
              VerifyResponse.recent_changes := [] |}.
Proof. vm_compute. reflexivity. Qed.

Example scenario_verify_after_delete :
  fst (verify_changes env_proj_without_b "proj"
         (exec (verify_changes (env_proj "y") "proj") state_proj))
  = Return {| VerifyResponse.directory := "/tmp/proj";
              VerifyResponse.added := [];
              VerifyResponse.deleted := ["/tmp/proj/b.bin"];
              VerifyResponse.modified := [];
              VerifyResponse.recent_changes := [] |}.
Proof. vm_compute. reflexivity. Qed.

Example list_files_ex :
  fst (list_files (env_proj "x") "proj" state_proj)
  = Return (ListOk "/tmp/proj" 2
      [ {| FileDetail.filename := "a.txt";
           FileDetail.path := "/tmp/proj/a.txt";
           FileDetail.hash := "x";
           FileDetail.size_bytes := 1;
           FileDetail.last_modified := 0;
           FileDetail.is_text := true |};
        {| FileDetail.filename := "b.bin";
           FileDetail.path := "/tmp/proj/b.bin";
           FileDetail.hash := "GIF89a";
           FileDetail.size_bytes := 6;
           FileDetail.last_modified := 0;
           FileDetail.is_text := false |} ]).
Proof. vm_compute. reflexivity. Qed.

Example verify_busy_ex :
  VerifyResponse.recent_changes
    match fst (verify_changes (env_proj "x") "proj" state_busy) with
    | Return r => r
    | Raise _ => {| VerifyResponse.directory := ""; VerifyResponse.added := [];
                    VerifyResponse.deleted := []; VerifyResponse.modified := [];
                    VerifyResponse.recent_changes := [] |}
    end
  = ["MODIFIED: /tmp/proj/f03"; "MODIFIED: /tmp/proj/f04";
     "MODIFIED: /tmp/proj/f05"; "MODIFIED: /tmp/proj/f06";
     "MODIFIED: /tmp/proj/f07"; "MODIFIED: /tmp/proj/f08";
     "MODIFIED: /tmp/proj/f09"; "MODIFIED: /tmp/proj/f10";
     "MODIFIED: /tmp/proj/f11"; "MODIFIED: /tmp/proj/f12"].
Proof. vm_compute. reflexivity. Qed.

Example diff_ex :
  let original := [("a", "1"); ("b", "2"); ("c", "3")] in
  let current := [("b", "2"); ("c", "4"); ("d", "5")] in
  added_of original current = ["d"]
  /\ deleted_of original current = ["a"]
  /\ modified_of original current = ["c"].
Proof. repeat split. Qed.

Example on_modified_directory_event_ex :
  on_modified (env_proj "y")
    {| is_directory := true; src_path := "/tmp/proj/a.txt" |} state_proj
  = (Return tt, state_proj).
Proof. reflexivity. Qed.

(** ** Dictionaries *)

Section DictFacts.
Context {V : Type}.
Implicit Types (d : dict V) (k : string) (v : V).

Lemma dict_mem_In d k : dict_mem k d = true <-> In k (dict_keys d).
Proof.
  unfold dict_mem.
  induction d as [|[k' v'] d IH]; simpl.
  - split; [discriminate | contradiction].
  - destruct (String.eqb_spec k' k) as [->|Hne].
    + split; auto.
    + rewrite IH. split; [auto | intros [?|?]; [contradiction | assumption]].
Qed.

Lemma dict_mem_not_In d k : dict_mem k d = false <-> ~ In k (dict_keys d).
Proof.
  rewrite <- dict_mem_In. destruct (dict_mem k d); split; congruence.
Qed.

Lemma dict_mem_get d k : dict_mem k d = true <-> exists v, dict_get d k = Some v.
Proof.
  unfold dict_mem. destruct (dict_get d k) as [v|].
  - split; eauto.
  - split; [discriminate | intros [v Hv]; discriminate].
Qed.

Lemma dict_get_None d k : dict_get d k = None <-> dict_mem k d = false.
Proof. unfold dict_mem. destruct (dict_get d k); split; congruence. Qed.

Lemma dict_get_set_same d k v : dict_get (dict_set d k v) k = Some v.
Proof.
  induction d as [|[k' v'] d IH]; simpl.
  - now rewrite String.eqb_refl.
  - destruct (String.eqb k' k) eqn:E; simpl; rewrite E; auto.
Qed.

Lemma dict_get_set_other d k k' v :
  k' <> k -> dict_get (dict_set d k v) k' = dict_get d k'.
Proof.
  intros Hne. induction d as [|[k0 v0] d IH]; simpl.
  - destruct (String.eqb_spec k k'); congruence.
  - destruct (String.eqb_spec k0 k) as [->|Hk]; simpl.
    + destruct (String.eqb_spec k k'); congruence.
    + now rewrite IH.
Qed.

Lemma dict_set_set d k v v' : dict_set (dict_set d k v) k v' = dict_set d k v'.
Proof.
  induction d as [|[k0 v0] d IH]; simpl.
  - now rewrite String.eqb_refl.
  - destruct (String.eqb k0 k) eqn:E; simpl; rewrite E; congruence.
Qed.

Lemma dict_set_same d k v : dict_get d k = Some v -> dict_set d k v = d.
Proof.
  induction d as [|[k0 v0] d IH]; simpl; [discriminate|].
  destruct (String.eqb k0 k); intros H.
  - congruence.
  - now rewrite IH.
Qed.

Lemma dict_keys_set_old d k v :
  dict_mem k d = true -> dict_keys (dict_set d k v) = dict_keys d.
Proof.
  unfold dict_mem.
  induction d as [|[k0 v0] d IH]; simpl; [discriminate|].
  destruct (String.eqb k0 k); simpl; intros H; [reflexivity|].
  now rewrite IH.
Qed.

Lemma dict_keys_set_new d k v :
  dict_mem k d = false -> dict_keys (dict_set d k v) = dict_keys d ++ [k].
Proof.
  unfold dict_mem.
  induction d as [|[k0 v0] d IH]; simpl; [reflexivity|].
  destruct (String.eqb k0 k); simpl; intros H; [discriminate|].
  now rewrite IH.
Qed.

Lemma dict_keys_set_In d k v k' :
  In k' (dict_keys (dict_set d k v)) <-> k' = k \/ In k' (dict_keys d).
Proof.
  destruct (dict_mem k d) eqn:E.
  - rewrite dict_keys_set_old by assumption.
    apply dict_mem_In in E. split; [auto | intros [->|?]; assumption].
  - rewrite dict_keys_set_new, in_app_iff by assumption. simpl.
    split; [intros [?|[?|[]]]; auto | intros [?|?]; auto].
Qed.

Lemma dict_wf_set d k v : dict_wf d -> dict_wf (dict_set d k v).
Proof.
  unfold dict_wf. intros Hd.
  destruct (dict_mem k d) eqn:E.
  - now rewrite dict_keys_set_old.
  - rewrite dict_keys_set_new by assumption.
    apply dict_mem_not_In in E.
    apply NoDup_app; repeat split; auto.
    + constructor; [intros [] | constructor].
    + intros x Hx [<-|[]]. contradiction.
Qed.

Lemma dict_length_keys d : List.length d = List.length (dict_keys d).
Proof. unfold dict_keys. now rewrite length_map. Qed.
End DictFacts.

(** ** Slices *)

Lemma slice_from_neg {A} (n : nat) (l : list A) :
  Py.slice_from (- Z.of_nat (S n)) l = skipn (List.length l - S n) l.
Proof.
  unfold Py.slice_from, Py.clamp_index.
  destruct (Z.ltb_spec (- Z.of_nat (S n)) 0); [|lia].
  f_equal. lia.
Qed.

Lemma slice_from_nonneg {A} (n : nat) (l : list A) :
  Py.slice_from (Z.of_nat n) l = skipn n l.
Proof.
  unfold Py.slice_from, Py.clamp_index.
  destruct (Z.ltb_spec (Z.of_nat n) 0); [lia|].
  rewrite Nat2Z.id.
  destruct (Nat.le_gt_cases n (List.length l)).
  - now rewrite Nat.min_l.
  - rewrite Nat.min_r by lia. rewrite !skipn_all2; auto; lia.
Qed.

Lemma slice_to_nonneg {A} (n : nat) (l : list A) :
  Py.slice_to (Z.of_nat n) l = firstn n l.
Proof.
  unfold Py.slice_to, Py.clamp_index.
  destruct (Z.ltb_spec (Z.of_nat n) 0); [lia|].
  rewrite Nat2Z.id.
  destruct (Nat.le_gt_cases n (List.length l)).
  - now rewrite Nat.min_l.
  - rewrite Nat.min_r by lia. rewrite !firstn_all2; auto; lia.
Qed.

(** ** [hash_file] *)

Lemma chunk_size_pos : 0 < chunk_size.
Proof. unfold chunk_size. lia. Qed.

Lemma read_loop_enough fuel : forall f sha256,
  List.length f < fuel -> read_loop fuel f sha256 = Some (sha256 ++ f).
Proof.
  induction fuel as [|fuel IH]; intros f sha256 Hlt; [lia|].
  pose proof chunk_size_pos as Hpos.
  cbn [read_loop].
  destruct (firstn chunk_size f) as [|b chunk] eqn:E.
  - destruct f as [|b f]; [now rewrite app_nil_r|].
    destruct chunk_size; [lia | discriminate].
  - rewrite IH.
    + rewrite <- E, <- app_assoc, firstn_skipn. reflexivity.
    + rewrite length_skipn.
      destruct f; [destruct chunk_size; discriminate | simpl in *; lia].
Qed.

(** X1. The chunked loop feeds the hasher the whole content, whatever
    its length: [hash_file] returns the digest of the file's bytes, or
    raises the [OSError] that opening or reading it raises. *)
Lemma hash_file_digest env filepath :
  hash_file env filepath =
  match read_bytes env filepath with
  | inl msg => Raise (OSError msg)
  | inr content => Return (sha256_hexdigest env content)
  end.
Proof.
  unfold hash_file. destruct (read_bytes env filepath) as [msg|content]; auto.
  rewrite read_loop_enough by lia. reflexivity.
Qed.

(** ** The scan loops *)

Lemma printed_nil s : printed s [] = s.
Proof. destruct s. unfold printed. simpl. now rewrite app_nil_r. Qed.

Lemma printed_app s l1 l2 : printed (printed s l1) l2 = printed s (l1 ++ l2).
Proof. unfold printed. simpl. now rewrite app_assoc. Qed.

Create HintDb monad.
#[local] Hint Unfold bind ret raise lift try_except print dir_db_contains
  dir_db_getitem dir_db_setitem snapshot_setitem change_log_append
  observer_schedule : monad.

Ltac run_monad := repeat (progress autounfold with monad); simpl.

Lemma until_is_file_error_ok env paths :
  listing_ok env paths = true -> until_is_file_error env paths = (paths, None).
Proof.
  induction paths as [|p paths IH]; [reflexivity|].
  simpl. destruct (is_file env p) as [msg|b]; [discriminate|].
  simpl. intros Hok. now rewrite IH.
Qed.

Lemma until_is_file_error_cons_ok env p paths b :
  is_file env p = inr b ->
  until_is_file_error env (p :: paths)
  = (p :: fst (until_is_file_error env paths),
     snd (until_is_file_error env paths)).
Proof.
  intros Hp. simpl. rewrite Hp.
  now destruct (until_is_file_error env paths).
Qed.

Lemma until_is_file_error_cons_raise env p paths msg :
  is_file env p = inl msg ->
  until_is_file_error env (p :: paths) = ([], Some msg).
Proof. intros Hp. simpl. now rewrite Hp. Qed.

(** The rescan loop of [verify_changes] walks the listing up to the first
    entry on which [is_file()] raises: it has then gathered [scan] and
    printed [scan_log] of the entries before it, and raises if there is
    such an entry. *)
Lemma verify_scan_loop env paths : forall current s,
  for_in paths current (verify_scan_body env) s
  = (scan_outcome env paths
       (scan env (fst (until_is_file_error env paths)) current),
     printed s (scan_log env (fst (until_is_file_error env paths)))).
Proof.
  unfold scan_outcome.
  induction paths as [|p paths IH]; intros current s.
  - simpl. unfold ret. now rewrite printed_nil.
  - cbn [for_in]. unfold bind at 1. unfold verify_scan_body at 1.
    unfold bind at 1, lift at 1, path_is_file.
    destruct (is_file env p) as [msg|b] eqn:Hp.
    + rewrite (until_is_file_error_cons_raise env p paths Hp).
      simpl. now rewrite printed_nil.
    + rewrite (until_is_file_error_cons_ok env p paths Hp).
      cbn [fst snd scan scan_log]. unfold is_regular. rewrite Hp.
      destruct b.
      * run_monad. destruct (hash_file env p) as [h|e].
        -- apply IH.
        -- rewrite IH. f_equal. apply (printed_app s [_]).
      * unfold ret at 1. apply IH.
Qed.

(** The scan loop of [register_directory], started with [snapshot] stored
    under [dir_name], walks the listing up to the first entry on which
    [is_file()] raises: it has then left [scan] of the entries before it
    under [dir_name] and printed their [scan_log], and raises if there is
    such an entry. *)
Lemma register_scan_loop env dir_name paths : forall snapshot s,
  dict_get (dir_db s) dir_name = Some snapshot ->
  for_in paths tt (register_scan_body env dir_name) s
  = (scan_outcome env paths tt,
     {| dir_db := dict_set (dir_db s) dir_name
                    (scan env (fst (until_is_file_error env paths)) snapshot);
        change_log := change_log s;
        observer := observer s;
        stdout := stdout s
                  ++ scan_log env (fst (until_is_file_error env paths)) |}).
Proof.
  unfold scan_outcome.
  induction paths as [|p paths IH]; intros snapshot s Hget.
  - simpl. unfold ret. rewrite dict_set_same by assumption.
    rewrite app_nil_r. now destruct s.
  - cbn [for_in]. unfold bind at 1. unfold register_scan_body at 1.
    unfold bind at 1, lift at 1, path_is_file.
    destruct (is_file env p) as [msg|b] eqn:Hp.
    + rewrite (until_is_file_error_cons_raise env p paths Hp).
      simpl. rewrite dict_set_same by assumption.
      rewrite app_nil_r. now destruct s.
    + rewrite (until_is_file_error_cons_ok env p paths Hp).
      cbn [fst snd scan scan_log]. unfold is_regular. rewrite Hp.
      destruct b.
      * run_monad. destruct (hash_file env p) as [h|e].
        -- rewrite Hget.
           erewrite IH by (simpl; apply dict_get_set_same).
           simpl. now rewrite dict_set_set.
        -- erewrite IH by (simpl; eassumption).
           simpl. now rewrite <- app_assoc.
      * unfold ret at 1. now apply IH.
Qed.

Lemma scan_unreadable_head env p paths acc :
  readable env p = false -> scan env (p :: paths) acc = scan env paths acc.
Proof.
  unfold readable. simpl.
  destruct (is_regular env p); [|reflexivity].
  destruct (hash_file env p); [discriminate | reflexivity].
Qed.

Lemma scan_readable_head env p paths acc :
  readable env p = true ->
  exists h, hash_file env p = Return h /\
            scan env (p :: paths) acc = scan env paths (dict_set acc p h).
Proof.
  unfold readable. simpl.
  destruct (is_regular env p); [|discriminate].
  destruct (hash_file env p) as [h|]; [eauto | discriminate].
Qed.

(** On a listing without repetitions that is disjoint from [acc], the scan
    appends exactly the readable files, in listing order. *)
Lemma scan_keys env paths : forall acc,
  NoDup paths ->
  (forall p, In p paths -> ~ In p (dict_keys acc)) ->
  dict_keys (scan env paths acc) = dict_keys acc ++ filter (readable env) paths.
Proof.
  induction paths as [|p paths IH]; intros acc Hnd Hdisj.
  - simpl. now rewrite app_nil_r.
  - inversion Hnd as [|? ? Hnotin Hnd']; subst.
    cbn [filter]. destruct (readable env p) eqn:Hr.
    + destruct (scan_readable_head env p paths acc Hr) as (h & _ & ->).
      rewrite IH; auto.
      * rewrite dict_keys_set_new.
        -- now rewrite <- app_assoc.
        -- apply dict_mem_not_In, Hdisj. now left.
      * intros q Hq. rewrite dict_keys_set_In. intros [->|Hin].
        -- contradiction.
        -- apply (Hdisj q); [now right | assumption].
    + rewrite scan_unreadable_head by assumption.
      apply IH; auto. intros q Hq. apply Hdisj. now right.
Qed.

Lemma scan_keys_nil env paths :
  NoDup paths ->
  dict_keys (scan env paths []) = filter (readable env) paths.
Proof. intros Hnd. now rewrite scan_keys. Qed.

(** ** The handlers in closed form *)

(** [register_directory] on a directory, whatever [is_file()] does. *)
Lemma register_directory_cases env dir_path s :
  isdir env (normpath dir_path) = true ->
  let root := normpath dir_path in
  let listed := fst (until_is_file_error env (rglob env root)) in
  let snapshot := scan env listed [] in
  register_directory env dir_path s
  = match snd (until_is_file_error env (rglob env root)) with
    | None =>
        (Return {| RegisterResponse.status := "success";
                   RegisterResponse.directory := root;
                   RegisterResponse.files_registered := List.length snapshot |},
         {| dir_db := dict_set (dir_db s) (basename root) snapshot;
            change_log := change_log s;
            observer := observer s ++ [root];
            stdout := stdout s ++ scan_log env listed |})
    | Some msg =>
        (Raise (OSError msg),
         {| dir_db := dict_set (dir_db s) (basename root) snapshot;
            change_log := change_log s;
            observer := observer s;
            stdout := stdout s ++ scan_log env listed |})
    end.
Proof.
  intros Hdir root listed snapshot. subst root listed snapshot.
  unfold register_directory. rewrite Hdir. simpl.
  unfold bind at 1. unfold dir_db_setitem at 1.
  unfold bind at 1.
  erewrite register_scan_loop by (simpl; apply dict_get_set_same).
  unfold scan_outcome.
  destruct (snd (until_is_file_error env (rglob env (normpath dir_path)))).
  - simpl. now rewrite dict_set_set.
  - run_monad. rewrite dict_set_set, dict_get_set_same. reflexivity.
Qed.

(** [register_directory] on a directory on whose entries [is_file()]
    does not raise. *)
Lemma register_directory_spec env dir_path s :
  isdir env (normpath dir_path) = true ->
  listing_ok env (rglob env (normpath dir_path)) = true ->
  let root := normpath dir_path in
  let snapshot := scan env (rglob env root) [] in
  register_directory env dir_path s
  = (Return {| RegisterResponse.status := "success";
               RegisterResponse.directory := root;
               RegisterResponse.files_registered := List.length snapshot |},
     {| dir_db := dict_set (dir_db s) (basename root) snapshot;
        change_log := change_log s;
        observer := observer s ++ [root];
        stdout := stdout s ++ scan_log env (rglob env root) |}).
Proof.
  intros Hdir Hok. cbv zeta.
  pose proof (register_directory_cases env dir_path s Hdir) as Hreg.
  cbv zeta in Hreg. rewrite Hreg.
  now rewrite (until_is_file_error_ok env _ Hok).
Qed.

Lemma register_directory_invalid env dir_path s :
  isdir env (normpath dir_path) = false ->
  register_directory env dir_path s
  = (Raise (HTTPException 400 "Invalid directory path"), s).
Proof. intros Hdir. unfold register_directory. now rewrite Hdir. Qed.

(** [verify_changes] on a registered name, whatever [is_file()] does: an
    error of [is_file()] leaves the handler before the snapshot is
    replaced. *)
Lemma verify_changes_cases env dir_name s original :
  dict_get (dir_db s) dir_name = Some original ->
  let dir_path := verify_dir_path original in
  let listed := fst (until_is_file_error env (rglob env dir_path)) in
  let current := scan env listed [] in
  verify_changes env dir_name s
  = match snd (until_is_file_error env (rglob env dir_path)) with
    | None =>
        (Return {| VerifyResponse.directory := dir_path;
                   VerifyResponse.added := added_of original current;
                   VerifyResponse.deleted := deleted_of original current;
                   VerifyResponse.modified := modified_of original current;
                   VerifyResponse.recent_changes :=
                     Py.slice_from (-10) (change_log s) |},
         {| dir_db := dict_set (dir_db s) dir_name current;
            change_log := change_log s;
            observer := observer s;
            stdout := stdout s ++ scan_log env listed |})
    | Some msg => (Raise (OSError msg), printed s (scan_log env listed))
    end.
Proof.
  intros Hget dir_path listed current. subst dir_path listed current.
  unfold verify_changes.
  unfold bind at 1. unfold dir_db_contains at 1.
  unfold dict_mem. rewrite Hget. simpl.
  unfold bind at 1. unfold dir_db_getitem at 1. rewrite Hget.
  unfold bind at 1. rewrite verify_scan_loop. unfold scan_outcome.
  now destruct (snd (until_is_file_error env
                       (rglob env (verify_dir_path original)))).
Qed.

(** [verify_changes] on a registered name when [is_file()] raises on no
    entry of the rescanned listing. *)
Lemma verify_changes_spec env dir_name s original :
  dict_get (dir_db s) dir_name = Some original ->
  listing_ok env (rglob env (verify_dir_path original)) = true ->
  let dir_path := verify_dir_path original in
  let current := scan env (rglob env dir_path) [] in
  verify_changes env dir_name s
  = (Return {| VerifyResponse.directory := dir_path;
               VerifyResponse.added := added_of original current;
               VerifyResponse.deleted := deleted_of original current;
               VerifyResponse.modified := modified_of original current;
               VerifyResponse.recent_changes :=
                 Py.slice_from (-10) (change_log s) |},
     {| dir_db := dict_set (dir_db s) dir_name current;
        change_log := change_log s;
        observer := observer s;
        stdout := stdout s ++ scan_log env (rglob env dir_path) |}).
Proof.
  intros Hget Hok. cbv zeta.
  pose proof (verify_changes_cases env dir_name s Hget) as Hv.
  cbv zeta in Hv. rewrite Hv.
  now rewrite (until_is_file_error_ok env _ Hok).
Qed.

Lemma verify_changes_unregistered env dir_name s :
  dict_mem dir_name (dir_db s) = false ->
  verify_changes env dir_name s
  = (Raise (HTTPException 404 "Directory not registered"), s).
Proof.
  intros Hmem. unfold verify_changes, bind, dir_db_contains.
  now rewrite Hmem.
Qed.

Lemma list_files_unregistered env dir_name s :
  dict_mem dir_name (dir_db s) = false ->
  list_files env dir_name s
  = (Raise (HTTPException 404 "Directory not registered"), s).
Proof.
  intros Hmem. unfold list_files, bind, dir_db_contains.
  now rewrite Hmem.
Qed.

(** ** The differ *)

Lemma added_of_In original current p :
  In p (added_of original current)
  <-> In p (dict_keys current) /\ ~ In p (dict_keys original).
Proof.
  unfold added_of. rewrite filter_In, negb_true_iff, dict_mem_not_In.
  reflexivity.
Qed.

Lemma deleted_of_In original current p :
  In p (deleted_of original current)
  <-> In p (dict_keys original) /\ ~ In p (dict_keys current).
Proof.
  unfold deleted_of. rewrite filter_In, negb_true_iff, dict_mem_not_In.
  reflexivity.
Qed.

Lemma getitem_differs_true current original p :
  In p (dict_keys current) -> In p (dict_keys original) ->
  getitem_differs current original p = true
  <-> dict_get current p <> dict_get original p.
Proof.
  intros Hc Ho.
  apply dict_mem_In, dict_mem_get in Hc. destruct Hc as [c Hc].
  apply dict_mem_In, dict_mem_get in Ho. destruct Ho as [o Ho].
  unfold getitem_differs. rewrite Hc, Ho, negb_true_iff.
  destruct (String.eqb_spec c o); split; congruence.
Qed.

Lemma modified_of_In original current p :
  In p (modified_of original current)
  <-> In p (dict_keys original) /\ In p (dict_keys current)
      /\ dict_get current p <> dict_get original p.
Proof.
  unfold modified_of. rewrite filter_In, andb_true_iff, dict_mem_In.
  split.
  - intros (Hc & Ho & Hd). repeat split; auto.
    now apply getitem_differs_true.
  - intros (Ho & Hc & Hd). repeat split; auto.
    now apply getitem_differs_true.
Qed.

(** C1. For every pair of snapshots, the three lists [verify_changes]
    computes (lines 98-100; [verify_changes_spec] shows they are what it
    returns) together with the unlisted, unchanged paths split the union
    of the two key sets: [added] is what is in the new snapshot and not in
    the old one, [deleted] what is in the old one and not in the new one,
    [modified] what is in both with different fingerprints, unchanged what
    is in both with equal fingerprints; every path of the union is in one
    of the four classes, and no path is in two of them. *)
Theorem diff_classifies_every_path (original current : dict string) (p : string) :
  let in_old := In p (dict_keys original) in
  let in_new := In p (dict_keys current) in
  let is_added := In p (added_of original current) in
  let is_deleted := In p (deleted_of original current) in
  let is_modified := In p (modified_of original current) in
  let is_unchanged :=
    in_old /\ in_new /\ dict_get current p = dict_get original p in
  (is_added <-> in_new /\ ~ in_old) /\
  (is_deleted <-> in_old /\ ~ in_new) /\
  (is_modified <->
     in_old /\ in_new /\ dict_get current p <> dict_get original p) /\
  (in_old \/ in_new ->
     is_added \/ is_deleted \/ is_modified \/ is_unchanged) /\
  ~ (is_added /\ is_deleted) /\
  ~ (is_added /\ is_modified) /\
  ~ (is_added /\ is_unchanged) /\
  ~ (is_deleted /\ is_modified) /\
  ~ (is_deleted /\ is_unchanged) /\
  ~ (is_modified /\ is_unchanged).
Proof.
  cbv zeta.
  rewrite added_of_In, deleted_of_In, modified_of_In.
  assert (Hold : In p (dict_keys original) \/ ~ In p (dict_keys original))
    by (destruct (dict_mem p original) eqn:E;
        [left; now apply dict_mem_In | right; now apply dict_mem_not_In]).
  assert (Hnew : In p (dict_keys current) \/ ~ In p (dict_keys current))
    by (destruct (dict_mem p current) eqn:E;
        [left; now apply dict_mem_In | right; now apply dict_mem_not_In]).
  assert (Heq : dict_get current p = dict_get original p
                \/ dict_get current p <> dict_get original p).
  { destruct (dict_get current p) as [c|], (dict_get original p) as [o|];
      try (right; discriminate); try (now left).
    destruct (String.eqb_spec c o); [left | right]; congruence. }
  repeat split; try tauto.
Qed.

(** The lists of one diff have no repeated path when the snapshots have
    none, as Python dictionaries guarantee. *)
Lemma diff_lists_NoDup original current :
  dict_wf original -> dict_wf current ->
  NoDup (added_of original current)
  /\ NoDup (deleted_of original current)
  /\ NoDup (modified_of original current).
Proof.
  unfold dict_wf, added_of, deleted_of, modified_of.
  intros Ho Hc. repeat split; now apply NoDup_filter.
Qed.

(** ** Unknown identifiers *)

(** C7. For a directory id that is not in the catalog, [verify_changes]
    and [list_files] both raise [HTTPException(404, "Directory not
    registered")] and leave every global as it was. *)
Theorem unknown_id_not_registered env dir_name s :
  dict_mem dir_name (dir_db s) = false ->
  verify_changes env dir_name s
  = (Raise (HTTPException 404 "Directory not registered"), s)
  /\ list_files env dir_name s
     = (Raise (HTTPException 404 "Directory not registered"), s).
Proof.
  intros Hmem. split.
  - now apply verify_changes_unregistered.
  - now apply list_files_unregistered.
Qed.

Lemma unknown_id_not_registered_witness :
  dict_mem "doesNotExist" (dir_db state_proj) = false
  /\ verify_changes (env_proj "x") "doesNotExist" state_proj
     = (Raise (HTTPException 404 "Directory not registered"), state_proj)
  /\ list_files (env_proj "x") "doesNotExist" state_proj
     = (Raise (HTTPException 404 "Directory not registered"), state_proj).
Proof.
  split; [reflexivity|].
  apply (unknown_id_not_registered (env_proj "x") "doesNotExist" state_proj).
  reflexivity.
Defined.

(** ** The change log surfaced by [verify_changes] *)

(** C8. A successful [verify_changes] returns as [recent_changes] the
    last ten entries of the process-wide change log (all of it when it
    has fewer), in the order they were appended: the log is some older
    entries followed by exactly the returned list.  The log itself is not
    changed by the call.  This holds of every call that returns, and the
    call returns whenever the name is registered and [is_file()] raises
    on no entry of the rescanned listing. *)
Theorem verify_recent_changes_last_ten env dir_name s original :
  dict_get (dir_db s) dir_name = Some original ->
  (forall r s',
      verify_changes env dir_name s = (Return r, s') ->
      change_log s' = change_log s
      /\ exists older,
           change_log s = older ++ VerifyResponse.recent_changes r
           /\ List.length (VerifyResponse.recent_changes r)
              = Nat.min 10 (List.length (change_log s)))
  /\ (listing_ok env (rglob env (verify_dir_path original)) = true ->
      exists r s' older,
        verify_changes env dir_name s = (Return r, s')
        /\ change_log s' = change_log s
        /\ change_log s = older ++ VerifyResponse.recent_changes r
        /\ List.length (VerifyResponse.recent_changes r)
           = Nat.min 10 (List.length (change_log s))).
Proof.
  intros Hget.
  assert (Hslice : change_log s
                   = firstn (List.length (change_log s) - 10) (change_log s)
                     ++ Py.slice_from (-10) (change_log s)
                   /\ List.length (Py.slice_from (-10) (change_log s))
                      = Nat.min 10 (List.length (change_log s))).
  { change (-10)%Z with (- Z.of_nat 10)%Z. rewrite slice_from_neg. split.
    - now rewrite firstn_skipn.
    - rewrite length_skipn. lia. }
  destruct Hslice as [Hcat Hlen]. split.
  - intros r s' Hv.
    pose proof (verify_changes_cases env dir_name s Hget) as Hc.
    cbv zeta in Hc. rewrite Hc in Hv.
    destruct (snd (until_is_file_error env
                     (rglob env (verify_dir_path original))));
      [discriminate|].
    inversion Hv; subst. cbn [VerifyResponse.recent_changes change_log].
    split; [reflexivity | eauto].
  - intros Hok.
    pose proof (verify_changes_spec env dir_name s Hget Hok) as Hv.
    cbv zeta in Hv. rewrite Hv.
    eexists _, _, (firstn (List.length (change_log s) - 10) (change_log s)).
    split; [reflexivity|].
    cbn [VerifyResponse.recent_changes change_log].
    split; [reflexivity|]. split; assumption.
Qed.

(** ** Listing an empty snapshot *)

(** C10. For a registered id whose stored snapshot is empty,
    [list_files] does not build the (directory, total_files, files)
    answer: it returns the object that holds only the error message "No
    files found in directory", raises nothing and changes no global. *)
Theorem list_files_empty_snapshot env dir_name s :
  dict_get (dir_db s) dir_name = Some [] ->
  list_files env dir_name s
  = (Return (ListError "No files found in directory"), s).
Proof.
  intros Hget. unfold list_files.
  unfold bind at 1. unfold dir_db_contains at 1.
  unfold dict_mem. rewrite Hget. simpl.
  unfold bind, dir_db_getitem. rewrite Hget. reflexivity.
Qed.

Lemma list_files_empty_snapshot_witness :
  dict_get (dir_db state_empty_root) "empty" = Some []
  /\ list_files env_empty_root "empty" state_empty_root
     = (Return (ListError "No files found in directory"), state_empty_root).
Proof.
  split; [reflexivity|].
  apply (list_files_empty_snapshot env_empty_root "empty" state_empty_root).
  reflexivity.
Defined.

(** ** Paths *)

Section PathFacts.
Implicit Types (l a b : list ascii) (c x : ascii).

Lemma rfind_from_absent c l : forall i last,
  ~ In c l -> Py.rfind_from c l i last = last.
Proof.
  induction l as [|x l IH]; intros i last Hnot; simpl; [reflexivity|].
  destruct (Ascii.eqb_spec x c) as [->|Hne].
  - exfalso. apply Hnot. now left.
  - apply IH. intros Hin. apply Hnot. now right.
Qed.

Lemma rfind_from_last_occurrence c a b : forall i last,
  ~ In c b ->
  Py.rfind_from c (a ++ c :: b) i last = (i + Z.of_nat (List.length a))%Z.
Proof.
  induction a as [|x a IH]; intros i last Hnot.
  - simpl. rewrite Ascii.eqb_refl, rfind_from_absent by assumption. lia.
  - cbn [app Py.rfind_from List.length]. rewrite IH by assumption. lia.
Qed.

Lemma rfind_last_occurrence c a b :
  ~ In c b -> Py.rfind c (a ++ c :: b) = Z.of_nat (List.length a).
Proof.
  intros Hnot. unfold Py.rfind.
  now rewrite rfind_from_last_occurrence.
Qed.

Lemma rstrip_snoc_same c l : Py.rstrip c (l ++ [c]) = Py.rstrip c l.
Proof.
  unfold Py.rstrip. rewrite rev_unit. simpl. now rewrite Ascii.eqb_refl.
Qed.

Lemma rstrip_snoc_other c l x : x <> c -> Py.rstrip c (l ++ [x]) = l ++ [x].
Proof.
  intros Hne. unfold Py.rstrip. rewrite rev_unit. simpl.
  destruct (Ascii.eqb_spec x c); [contradiction|].
  simpl. now rewrite rev_involutive.
Qed.

Lemma skipn_past_sep c a b : skipn (S (List.length a)) (a ++ c :: b) = b.
Proof. induction a as [|x a IH]; simpl; auto. Qed.

Lemma firstn_past_sep c a b :
  firstn (S (List.length a)) (a ++ c :: b) = a ++ [c].
Proof.
  induction a as [|x a IH]; [reflexivity|].
  cbn [app List.length]. rewrite firstn_cons. now rewrite IH.
Qed.

Lemma all_char_app c a b :
  Py.all_char c (a ++ b) = Py.all_char c a && Py.all_char c b.
Proof. unfold Py.all_char. apply forallb_app. Qed.
End PathFacts.

Lemma list_ascii_of_string_app (s1 s2 : string) :
  list_ascii_of_string (s1 ++ s2)
  = list_ascii_of_string s1 ++ list_ascii_of_string s2.
Proof. induction s1 as [|c s1 IH]; simpl; congruence. Qed.

Lemma string_app_assoc (s1 s2 s3 : string) :
  ((s1 ++ s2) ++ s3 = s1 ++ s2 ++ s3)%string.
Proof. induction s1 as [|c s1 IH]; simpl; congruence. Qed.

(** [basename(a + "/" + b) == b] when [b] has no separator. *)
Lemma basename_join (a b : string) :
  slash_free b -> basename (a ++ "/" ++ b) = b.
Proof.
  intros Hb. unfold basename.
  rewrite list_ascii_of_string_app. cbn [list_ascii_of_string append].
  rewrite rfind_last_occurrence by exact Hb.
  replace (Z.of_nat (List.length (list_ascii_of_string a)) + 1)%Z
    with (Z.of_nat (S (List.length (list_ascii_of_string a)))) by lia.
  rewrite slice_from_nonneg, skipn_past_sep.
  apply string_of_list_ascii_of_string.
Qed.

(** [dirname(a + "/" + b) == a] when [b] has no separator and [a] ends
    in a character other than the separator. *)
Lemma dirname_join (a b : string) (x : ascii) (a' : string) :
  slash_free b -> a = (a' ++ String x "")%string -> x <> sep ->
  dirname (a ++ "/" ++ b) = a.
Proof.
  intros Hb -> Hx. unfold dirname.
  rewrite !list_ascii_of_string_app. cbn [list_ascii_of_string append app].
  rewrite rfind_last_occurrence by exact Hb.
  set (la := list_ascii_of_string a' ++ [x]).
  replace (Z.of_nat (List.length la) + 1)%Z
    with (Z.of_nat (S (List.length la))) by lia.
  rewrite slice_to_nonneg, firstn_past_sep.
  change "/"%char with sep.
  assert (Hall : Py.all_char sep (la ++ [sep]) = false).
  { unfold la. rewrite !all_char_app. simpl.
    destruct (Ascii.eqb_spec x sep); [contradiction|].
    now rewrite andb_false_r. }
  assert (Hstrip : Py.rstrip sep (la ++ [sep]) = la).
  { rewrite rstrip_snoc_same. unfold la. now apply rstrip_snoc_other. }
  rewrite Hall, Hstrip. simpl negb. cbv iota.
  destruct (la ++ [sep]) eqn:E; [destruct la; discriminate|].
  unfold la. rewrite <- (string_of_list_ascii_of_string (a' ++ String x "")).
  now rewrite list_ascii_of_string_app.
Qed.

Lemma slash_free_last (sub : string) :
  sub <> "" -> slash_free sub ->
  exists sub' x, sub = (sub' ++ String x "")%string /\ x <> sep.
Proof.
  unfold slash_free.
  induction sub as [|c sub IH]; intros Hne Hfree; [congruence|].
  destruct sub as [|c' sub].
  - exists "", c. split; [reflexivity|].
    intros ->. apply Hfree. now left.
  - destruct IH as (sub' & x & Heq & Hx); [discriminate | |].
    + intros Hin. apply Hfree. now right.
    + exists (String c sub'), x. split; [|assumption].
      simpl. now rewrite <- Heq.
Qed.

(** The directory name the watcher derives for a file [name] inside the
    subdirectory [sub] of [root] is [sub]. *)
Lemma basename_dirname_nested (root sub name : string) :
  sub <> "" -> slash_free sub -> slash_free name ->
  basename (dirname (root ++ "/" ++ sub ++ "/" ++ name)) = sub.
Proof.
  intros Hne Hsub Hname.
  destruct (slash_free_last Hne Hsub) as (sub' & x & Heq & Hx).
  replace (root ++ "/" ++ sub ++ "/" ++ name)%string
    with ((root ++ "/" ++ sub) ++ "/" ++ name)%string
    by (now rewrite !string_app_assoc).
  rewrite (@dirname_join (root ++ "/" ++ sub) name x (root ++ "/" ++ sub')%string);
    auto.
  - now apply basename_join.
  - rewrite Heq. now rewrite !string_app_assoc.
Qed.

(** ** The watcher *)

(** [on_modified] in closed form. *)
Lemma on_modified_cases env event s :
  let filepath := src_path event in
  let dir_name := basename (dirname filepath) in
  on_modified env event s =
  if is_directory event then (Return tt, s)
  else
    match dict_get (dir_db s) dir_name with
    | None => (Return tt, s)
    | Some snapshot =>
        match hash_file env filepath with
        | Raise e => (Raise e, s)
        | Return new_hash =>
            if get_differs (dict_get snapshot filepath) new_hash then
              (Return tt,
               {| dir_db := dict_set (dir_db s) dir_name
                              (dict_set snapshot filepath new_hash);
                  change_log :=
                    change_log s ++ [("MODIFIED: " ++ filepath)%string];
                  observer := observer s;
                  stdout := stdout s |})
            else (Return tt, s)
        end
    end.
Proof.
  cbv zeta. unfold on_modified.
  destruct (is_directory event); [reflexivity|].
  run_monad. unfold dict_mem.
  destruct (dict_get (dir_db s) (basename (dirname (src_path event))))
    as [snapshot|] eqn:Hget; [|reflexivity].
  destruct (hash_file env (src_path event)) as [new_hash|e]; [|reflexivity].
  rewrite Hget.
  destruct (get_differs (dict_get snapshot (src_path event)) new_hash);
    [|reflexivity].
  simpl. rewrite Hget. reflexivity.
Qed.

Lemma get_differs_true stored new_hash :
  get_differs stored new_hash = true <-> stored <> Some new_hash.
Proof.
  destruct stored as [h|]; simpl.
  - rewrite negb_true_iff. destruct (String.eqb_spec h new_hash);
      split; congruence.
  - split; [discriminate | reflexivity].
Qed.

Lemma get_differs_false stored new_hash :
  get_differs stored new_hash = false <-> stored = Some new_hash.
Proof.
  destruct stored as [h|]; simpl.
  - rewrite negb_false_iff. destruct (String.eqb_spec h new_hash);
      split; congruence.
  - split; discriminate.
Qed.

(** X17. On a modification event for a file [filepath] whose parent
    directory's base name is a registered id and which can be
    fingerprinted: if the new fingerprint is not the stored one (the path
    is unknown, or known with another fingerprint) the watcher appends the
    one entry "MODIFIED: filepath" to the change log and stores the new
    fingerprint under [filepath] in that id's snapshot; if it is the
    stored one, no global changes. *)
Theorem on_modified_updates_on_new_fingerprint env filepath s snapshot new_hash :
  let dir_name := basename (dirname filepath) in
  let event := {| is_directory := false; src_path := filepath |} in
  dict_get (dir_db s) dir_name = Some snapshot ->
  hash_file env filepath = Return new_hash ->
  (dict_get snapshot filepath <> Some new_hash ->
   on_modified env event s
   = (Return tt,
      {| dir_db := dict_set (dir_db s) dir_name
                     (dict_set snapshot filepath new_hash);
         change_log := change_log s ++ [("MODIFIED: " ++ filepath)%string];
         observer := observer s;
         stdout := stdout s |}))
  /\ (dict_get snapshot filepath = Some new_hash ->
      on_modified env event s = (Return tt, s)).
Proof.
  cbv zeta. intros Hget Hhash.
  rewrite on_modified_cases. cbn [is_directory src_path].
  rewrite Hget, Hhash. split; intros Hstored.
  - apply get_differs_true in Hstored. now rewrite Hstored.
  - apply get_differs_false in Hstored. now rewrite Hstored.
Qed.

(** When the update is made, the snapshot holds the new fingerprint for
    the file and is otherwise as before. *)
Lemma updated_snapshot_lookup (snapshot : dict string) filepath new_hash q :
  dict_get (dict_set snapshot filepath new_hash) q
  = if String.eqb q filepath then Some new_hash else dict_get snapshot q.
Proof.
  destruct (String.eqb_spec q filepath) as [->|Hne].
  - apply dict_get_set_same.
  - now apply dict_get_set_other.
Qed.

(** A modification event for a file in a registered directory that
    cannot be fingerprinted makes [on_modified] raise: the globals are
    untouched, but the error leaves the callback. *)
Lemma on_modified_hash_failure env filepath s snapshot e :
  dict_get (dir_db s) (basename (dirname filepath)) = Some snapshot ->
  hash_file env filepath = Raise e ->
  on_modified env {| is_directory := false; src_path := filepath |} s
  = (Raise e, s).
Proof.
  intros Hget Hhash. rewrite on_modified_cases. cbn [is_directory src_path].
  now rewrite Hget, Hhash.
Qed.

(** C5 (the code departs from the claim).  [/tmp/tree] is registered:
    its snapshot, stored under [tree], holds [/tmp/tree/a/x.txt] with
    digest "x", and the root is watched recursively.  The file is then
    rewritten, so that it hashes to "x2".  The modification event for it
    is dropped: the watcher looks the file up under [a], the base name of
    its parent directory, which is no registered name, and neither
    appends to the change log nor updates the snapshot of [tree]. *)
Theorem on_modified_ignores_nested_file :
  register_directory env_tree "/tmp/tree" initial_state
  = (Return {| RegisterResponse.status := "success";
               RegisterResponse.directory := "/tmp/tree";
               RegisterResponse.files_registered := 2 |},
     {| dir_db := [("tree", [("/tmp/tree/a/x.txt", "x");
                             ("/tmp/tree/b/y.txt", "y")])];
        change_log := [];
        observer := ["/tmp/tree"];
        stdout := [] |})
  /\ hash_file env_tree_changed "/tmp/tree/a/x.txt" = Return "x2"
  /\ on_modified env_tree_changed
       {| is_directory := false; src_path := "/tmp/tree/a/x.txt" |}
       {| dir_db := [("tree", [("/tmp/tree/a/x.txt", "x");
                               ("/tmp/tree/b/y.txt", "y")])];
          change_log := [];
          observer := ["/tmp/tree"];
          stdout := [] |}
     = (Return tt,
        {| dir_db := [("tree", [("/tmp/tree/a/x.txt", "x");
                                ("/tmp/tree/b/y.txt", "y")])];
           change_log := [];
           observer := ["/tmp/tree"];
           stdout := [] |}).
Proof. repeat split; vm_compute; reflexivity. Qed.

(** C6 (the code departs from the claim). In [env_proj], after
    [/tmp/proj] has been registered, a modification event for
    [/tmp/proj/locked.dat], which cannot be opened, is not skipped: the
    snapshot and the change log are untouched, but [on_modified] raises
    the [OSError] of [hash_file] instead of returning. *)
Theorem on_modified_unreadable_file_raises :
  on_modified (env_proj "x")
    {| is_directory := false; src_path := "/tmp/proj/locked.dat" |} state_proj
  = (Raise (OSError "Permission denied"), state_proj).
Proof. vm_compute. reflexivity. Qed.

(** C9. A modification event whose file's immediate parent directory has
    a base name that is not a registered id leaves every global as it was
    (catalog and change log included) and raises nothing.  Hence an event
    for [root/sub/name], a file in the subdirectory [sub] of a root, does
    nothing when [sub] is not itself a registered id, whether or not
    [root] is registered.  The update is keyed by the base name of the
    file's immediate parent directory: the only snapshot an event can
    change is the one stored under that name, so an event for
    [root/sub/name] leaves the snapshot of every id other than [sub] as it
    was. *)
Theorem on_modified_unregistered_parent env s :
  (forall event,
      dict_mem (basename (dirname (src_path event))) (dir_db s) = false ->
      on_modified env event s = (Return tt, s))
  /\ (forall root sub name is_dir,
         sub <> "" -> slash_free sub -> slash_free name ->
         dict_mem sub (dir_db s) = false ->
         on_modified env
           {| is_directory := is_dir;
              src_path := (root ++ "/" ++ sub ++ "/" ++ name)%string |} s
         = (Return tt, s))
  /\ (forall event dir_name,
         dir_name <> basename (dirname (src_path event)) ->
         dict_get (dir_db (exec (on_modified env event) s)) dir_name
         = dict_get (dir_db s) dir_name)
  /\ (forall root sub name is_dir root_id,
         sub <> "" -> slash_free sub -> slash_free name ->
         root_id <> sub ->
         dict_get
           (dir_db (exec (on_modified env
                            {| is_directory := is_dir;
                               src_path := (root ++ "/" ++ sub ++ "/" ++ name)%string |})
                         s))
           root_id
         = dict_get (dir_db s) root_id).
Proof.
  assert (Hframe : forall event,
             dict_mem (basename (dirname (src_path event))) (dir_db s) = false ->
             on_modified env event s = (Return tt, s)).
  { intros event Hmem. rewrite on_modified_cases.
    apply dict_get_None in Hmem. rewrite Hmem.
    now destruct (is_directory event). }
  assert (Hkeyed : forall event dir_name,
             dir_name <> basename (dirname (src_path event)) ->
             dict_get (dir_db (exec (on_modified env event) s)) dir_name
             = dict_get (dir_db s) dir_name).
  { intros event dir_name Hneq. unfold exec.
    rewrite on_modified_cases.
    destruct (is_directory event); [reflexivity|].
    destruct (dict_get (dir_db s) (basename (dirname (src_path event))));
      [|reflexivity].
    destruct (hash_file env (src_path event)); [|reflexivity].
    destruct (get_differs _ _); [|reflexivity].
    cbn [snd dir_db]. now apply dict_get_set_other. }
  split; [exact Hframe|]. split; [|split; [exact Hkeyed|]].
  - intros root sub name is_dir Hne Hsub Hname Hmem.
    apply Hframe. cbn [src_path].
    now rewrite basename_dirname_nested.
  - intros root sub name is_dir root_id Hne Hsub Hname Hid.
    apply Hkeyed. cbn [src_path].
    now rewrite basename_dirname_nested.
Qed.

Lemma on_modified_updates_on_new_fingerprint_witness :
  on_modified (env_proj "y")
    {| is_directory := false; src_path := "/tmp/proj/a.txt" |} state_proj
  = (Return tt,
     {| dir_db := [("proj", [("/tmp/proj/a.txt", "y");
                             ("/tmp/proj/b.bin", "GIF89a")])];
        change_log := ["MODIFIED: /tmp/proj/a.txt"];
        observer := ["/tmp/proj"];
        stdout := ["Skipping /tmp/proj/locked.dat: Permission denied"] |})
  /\ on_modified (env_proj "x")
       {| is_directory := false; src_path := "/tmp/proj/a.txt" |} state_proj
     = (Return tt, state_proj).
Proof.
  split.
  - apply (proj1 (on_modified_updates_on_new_fingerprint
                    (env_proj "y") "/tmp/proj/a.txt" state_proj
                    (snapshot := [("/tmp/proj/a.txt", "x");
                                  ("/tmp/proj/b.bin", "GIF89a")])
                    (new_hash := "y") eq_refl eq_refl)).
    simpl. discriminate.
  - apply (proj2 (on_modified_updates_on_new_fingerprint
                    (env_proj "x") "/tmp/proj/a.txt" state_proj
                    (snapshot := [("/tmp/proj/a.txt", "x");
                                  ("/tmp/proj/b.bin", "GIF89a")])
                    (new_hash := "x") eq_refl eq_refl)).
    reflexivity.
Defined.

Lemma verify_recent_changes_last_ten_witness :
  dict_get (dir_db state_busy) "proj" = Some [("/tmp/proj/a.txt", "x")]
  /\ exists r s' older,
      verify_changes (env_proj "x") "proj" state_busy = (Return r, s')
      /\ change_log s' = change_log state_busy
      /\ change_log state_busy = older ++ VerifyResponse.recent_changes r
      /\ List.length (VerifyResponse.recent_changes r)
         = Nat.min 10 (List.length (change_log state_busy)).
Proof.
  split; [reflexivity|].
  apply (proj2 (verify_recent_changes_last_ten (env_proj "x") "proj" state_busy
                  (original := [("/tmp/proj/a.txt", "x")]) eq_refl)).
  reflexivity.
Defined.

Lemma on_modified_unregistered_parent_witness :
  dict_mem "sub" (dir_db state_proj) = false
  /\ on_modified (env_proj "x")
       {| is_directory := false; src_path := "/tmp/proj/sub/a.txt" |} state_proj
     = (Return tt, state_proj)
  /\ on_modified (env_proj "x")
       {| is_directory := false;
          src_path := ("/tmp/proj" ++ "/" ++ "sub" ++ "/" ++ "a.txt")%string |}
       state_proj
     = (Return tt, state_proj).
Proof.
  split; [reflexivity|]. split.
  - apply (proj1 (on_modified_unregistered_parent (env_proj "x") state_proj)
             {| is_directory := false; src_path := "/tmp/proj/sub/a.txt" |}).
    reflexivity.
  - apply (proj1 (proj2 (on_modified_unregistered_parent (env_proj "x") state_proj))
             "/tmp/proj" "sub" "a.txt" false).
    + discriminate.
    + unfold slash_free. simpl. intuition discriminate.
    + unfold slash_free. simpl. intuition discriminate.
    + reflexivity.
Defined.

(** ** Registration *)

Lemma scan_get env paths : forall acc p h,
  dict_get (scan env paths acc) p = Some h ->
  dict_get acc p = Some h \/ hash_file env p = Return h.
Proof.
  induction paths as [|q paths IH]; intros acc p h Hget; [now left|].
  simpl in Hget.
  destruct (is_regular env q); [|now apply IH].
  destruct (hash_file env q) as [hq|] eqn:Hq; [|now apply IH].
  apply IH in Hget. destruct Hget as [Hget|]; [|now right].
  destruct (String.eqb_spec p q) as [->|Hne].
  - rewrite dict_get_set_same in Hget. right. congruence.
  - rewrite dict_get_set_other in Hget by assumption. now left.
Qed.

Lemma unreadable_not_readable env p :
  unreadable env p = true -> readable env p = false.
Proof.
  unfold unreadable, readable.
  destruct (is_regular env p), (hash_file env p); simpl; congruence.
Qed.

(** X16. When [is_file()] raises on no entry of the listing,
    registering a directory whose listing holds [N] regular files that
    can be fingerprinted and [M] whose fingerprinting raises does not
    fail: it returns status "success" with [files_registered = N], and
    the snapshot stored for the directory holds exactly the [N] readable
    files with their digests and none of the unreadable ones. *)
Theorem register_counts_readable_files env dir_path s (N M : nat) :
  let root := normpath dir_path in
  let listing := rglob env root in
  isdir env root = true ->
  listing_ok env listing = true ->
  NoDup listing ->
  List.length (filter (readable env) listing) = N ->
  List.length (filter (unreadable env) listing) = M ->
  exists r s' snapshot,
    register_directory env dir_path s = (Return r, s')
    /\ RegisterResponse.status r = "success"
    /\ RegisterResponse.files_registered r = N
    /\ dict_get (dir_db s') (basename root) = Some snapshot
    /\ dict_keys snapshot = filter (readable env) listing
    /\ (forall p h, dict_get snapshot p = Some h -> hash_file env p = Return h)
    /\ (forall p, unreadable env p = true -> ~ In p (dict_keys snapshot)).
Proof.
  cbv zeta. intros Hdir Hok Hnd HN HM.
  pose proof (register_directory_spec env dir_path s Hdir Hok) as Hreg.
  cbv zeta in Hreg. rewrite Hreg.
  set (snapshot := scan env (rglob env (normpath dir_path)) []).
  assert (Hkeys : dict_keys snapshot
                  = filter (readable env) (rglob env (normpath dir_path)))
    by (now apply scan_keys_nil).
  exists {| RegisterResponse.status := "success";
            RegisterResponse.directory := normpath dir_path;
            RegisterResponse.files_registered := List.length snapshot |}.
  eexists. exists snapshot.
  split; [reflexivity|]. split; [reflexivity|]. split.
  { cbn [RegisterResponse.files_registered].
    now rewrite dict_length_keys, Hkeys. }
  split; [apply dict_get_set_same|]. split; [exact Hkeys|]. split.
  - intros p h Hget. apply scan_get in Hget.
    destruct Hget as [Hget|]; [discriminate | assumption].
  - intros p Hun. rewrite Hkeys, filter_In.
    apply unreadable_not_readable in Hun. intros [_ Hr]. congruence.
Qed.

Lemma register_counts_readable_files_witness :
  exists r s' snapshot,
    register_directory (env_proj "x") "/tmp/proj/" initial_state = (Return r, s')
    /\ RegisterResponse.status r = "success"
    /\ RegisterResponse.files_registered r = 2
    /\ dict_get (dir_db s') "proj" = Some snapshot
    /\ dict_keys snapshot = ["/tmp/proj/a.txt"; "/tmp/proj/b.bin"]
    /\ (forall p h, dict_get snapshot p = Some h ->
                    hash_file (env_proj "x") p = Return h)
    /\ (forall p, unreadable (env_proj "x") p = true ->
                  ~ In p (dict_keys snapshot)).
Proof.
  apply (register_counts_readable_files (env_proj "x") "/tmp/proj/"
           initial_state (N := 2) (M := 1)).
  - reflexivity.
  - reflexivity.
  - repeat (constructor; [simpl; intuition discriminate|]). constructor.
  - reflexivity.
  - reflexivity.
Defined.

(** X18. An entry on which [is_file()] raises aborts the scan.
    [register_directory] then raises that [OSError]: the snapshot stored
    under the name is the scan of the entries listed before it and no
    watch is scheduled.  [verify_changes] raises it as well, before the
    snapshot is replaced: the catalog is as it was and no report is
    returned. *)
Theorem is_file_error_aborts_scan env s :
  (forall dir_path before msg,
      isdir env (normpath dir_path) = true ->
      until_is_file_error env (rglob env (normpath dir_path))
      = (before, Some msg) ->
      register_directory env dir_path s
      = (Raise (OSError msg),
         {| dir_db := dict_set (dir_db s) (basename (normpath dir_path))
                        (scan env before []);
            change_log := change_log s;
            observer := observer s;
            stdout := stdout s ++ scan_log env before |}))
  /\ (forall dir_name original before msg,
         dict_get (dir_db s) dir_name = Some original ->
         until_is_file_error env (rglob env (verify_dir_path original))
         = (before, Some msg) ->
         verify_changes env dir_name s
         = (Raise (OSError msg), printed s (scan_log env before))).
Proof.
  split.
  - intros dir_path before msg Hdir Huntil.
    pose proof (register_directory_cases env dir_path s Hdir) as Hreg.
    cbv zeta in Hreg. rewrite Hreg. now rewrite Huntil.
  - intros dir_name original before msg Hget Huntil.
    pose proof (verify_changes_cases env dir_name s Hget) as Hv.
    cbv zeta in Hv. rewrite Hv. now rewrite Huntil.
Qed.

Lemma is_file_error_aborts_scan_witness :
  register_directory env_proj_private "/tmp/proj" initial_state
  = (Raise (OSError "Permission denied"),
     {| dir_db :=
          dict_set (dir_db initial_state) (basename (normpath "/tmp/proj"))
            (scan env_proj_private
               ["/tmp/proj/a.txt"; "/tmp/proj/b.bin"; "/tmp/proj/private"] []);
        change_log := change_log initial_state;
        observer := observer initial_state;
        stdout := stdout initial_state
                  ++ scan_log env_proj_private
                       ["/tmp/proj/a.txt"; "/tmp/proj/b.bin";
                        "/tmp/proj/private"] |})
  /\ verify_changes env_proj_private "proj" state_proj
     = (Raise (OSError "Permission denied"),
        printed state_proj
          (scan_log env_proj_private
             ["/tmp/proj/a.txt"; "/tmp/proj/b.bin"; "/tmp/proj/private"])).
Proof.
  split.
  - apply (proj1 (is_file_error_aborts_scan env_proj_private initial_state)
             "/tmp/proj"
             ["/tmp/proj/a.txt"; "/tmp/proj/b.bin"; "/tmp/proj/private"]
             "Permission denied").
    + reflexivity.
    + reflexivity.
  - apply (proj2 (is_file_error_aborts_scan env_proj_private state_proj)
             "proj"
             [("/tmp/proj/a.txt", "x"); ("/tmp/proj/b.bin", "GIF89a")]
             ["/tmp/proj/a.txt"; "/tmp/proj/b.bin"; "/tmp/proj/private"]
             "Permission denied").
    + reflexivity.
    + reflexivity.
Defined.

(** C4 (the code departs from the claim).  [/tmp/proj] holds two
    readable files and [private/key.pem], which can be neither stat-ed
    nor opened.  Registration does not skip that file: [is_file()]
    raises outside the [try], so [register_directory] raises its
    [OSError] instead of answering with [files_registered = 2]; the two
    files scanned before it are left in the catalog and no watch is
    scheduled. *)
Theorem register_fails_on_stat_denied_entry :
  isdir env_proj_private (normpath "/tmp/proj") = true
  /\ filter (readable env_proj_private) (rglob env_proj_private "/tmp/proj")
     = ["/tmp/proj/a.txt"; "/tmp/proj/b.bin"]
  /\ hash_file env_proj_private "/tmp/proj/private/key.pem"
     = Raise (OSError "Permission denied")
  /\ register_directory env_proj_private "/tmp/proj" initial_state
     = (Raise (OSError "Permission denied"),
        {| dir_db := [("proj", [("/tmp/proj/a.txt", "x");
                                ("/tmp/proj/b.bin", "GIF89a")])];
           change_log := [];
           observer := [];
           stdout := [] |}).
Proof. repeat split; vm_compute; reflexivity. Qed.

(** ** Which directory [verify_changes] rescans *)

Lemma verify_dir_path_nil : verify_dir_path [] = "".
Proof. reflexivity. Qed.

Lemma verify_dir_path_cons k h rest : verify_dir_path ((k, h) :: rest) = dirname k.
Proof. unfold verify_dir_path. simpl. now destruct k. Qed.

(** C3 (the code departs from the claim).  [/srv/empty] is registered
    while empty; with the file system untouched, [verify_changes] does
    not rescan the registered root [/srv/empty] but the current
    directory of the process: it answers for directory [""], reports
    [notes.txt] as added and stores it as the snapshot of [empty]. *)
Theorem verify_empty_snapshot_leaves_registered_root :
  register_directory env_empty_root "/srv/empty" initial_state
  = (Return {| RegisterResponse.status := "success";
               RegisterResponse.directory := "/srv/empty";
               RegisterResponse.files_registered := 0 |},
     {| dir_db := [("empty", [])];
        change_log := [];
        observer := ["/srv/empty"];
        stdout := [] |})
  /\ verify_changes env_empty_root "empty"
       {| dir_db := [("empty", [])];
          change_log := [];
          observer := ["/srv/empty"];
          stdout := [] |}
     = (Return {| VerifyResponse.directory := "";
                  VerifyResponse.added := ["notes.txt"];
                  VerifyResponse.deleted := [];
                  VerifyResponse.modified := [];
                  VerifyResponse.recent_changes := [] |},
        {| dir_db := [("empty", [("notes.txt", "todo")])];
           change_log := [];
           observer := ["/srv/empty"];
           stdout := [] |})
  /\ "" <> "/srv/empty".
Proof.
  split; [vm_compute; reflexivity|].
  split; [vm_compute; reflexivity|].
  discriminate.
Qed.

(** ** Verifying twice *)

Lemma filter_none {A} (f : A -> bool) (l : list A) :
  (forall x, In x l -> f x = false) -> filter f l = [].
Proof.
  induction l as [|x l IH]; intros Hf; [reflexivity|].
  simpl. rewrite (Hf x) by now left.
  apply IH. intros y Hy. apply Hf. now right.
Qed.

Lemma same_mapping_mem d1 d2 p :
  same_mapping d1 d2 -> dict_mem p d1 = dict_mem p d2.
Proof. intros Hsame. unfold dict_mem. now rewrite Hsame. Qed.

(** Snapshots that are the same mapping have an empty diff. *)
Lemma diff_same_mapping original current :
  same_mapping current original ->
  added_of original current = []
  /\ deleted_of original current = []
  /\ modified_of original current = [].
Proof.
  intros Hsame. repeat split; apply filter_none; intros p Hp.
  - apply dict_mem_In in Hp.
    now rewrite <- (same_mapping_mem p Hsame), Hp.
  - apply dict_mem_In in Hp.
    now rewrite (same_mapping_mem p Hsame), Hp.
  - unfold getitem_differs. rewrite (Hsame p).
    destruct (dict_get original p) as [o|].
    + now rewrite String.eqb_refl, andb_false_r.
    + now rewrite andb_false_r.
Qed.

Lemma same_mapping_refl d : same_mapping d d.
Proof. now intros p. Qed.

(** C2 (the code departs from the claim).  [/tmp/tree] is registered
    and two [verify_changes] calls follow, all on the same file system.
    The first call does not rescan the registered root: it rescans
    [/tmp/tree/a] only, the directory of the first path of the snapshot,
    and reports [/tmp/tree/b/y.txt] as deleted, a file that is still
    there, readable and unchanged. *)
Theorem verify_twice_after_register_reports_deleted :
  register_directory env_tree "/tmp/tree" initial_state
  = (Return {| RegisterResponse.status := "success";
               RegisterResponse.directory := "/tmp/tree";
               RegisterResponse.files_registered := 2 |},
     {| dir_db := [("tree", [("/tmp/tree/a/x.txt", "x");
                             ("/tmp/tree/b/y.txt", "y")])];
        change_log := [];
        observer := ["/tmp/tree"];
        stdout := [] |})
  /\ verify_changes env_tree "tree"
       {| dir_db := [("tree", [("/tmp/tree/a/x.txt", "x");
                               ("/tmp/tree/b/y.txt", "y")])];
          change_log := [];
          observer := ["/tmp/tree"];
          stdout := [] |}
     = (Return {| VerifyResponse.directory := "/tmp/tree/a";
                  VerifyResponse.added := [];
                  VerifyResponse.deleted := ["/tmp/tree/b/y.txt"];
                  VerifyResponse.modified := [];
                  VerifyResponse.recent_changes := [] |},
        {| dir_db := [("tree", [("/tmp/tree/a/x.txt", "x")])];
           change_log := [];
           observer := ["/tmp/tree"];
           stdout := [] |})
  /\ verify_changes env_tree "tree"
       {| dir_db := [("tree", [("/tmp/tree/a/x.txt", "x")])];
          change_log := [];
          observer := ["/tmp/tree"];
          stdout := [] |}
     = (Return {| VerifyResponse.directory := "/tmp/tree/a";
                  VerifyResponse.added := [];
                  VerifyResponse.deleted := [];
                  VerifyResponse.modified := [];
                  VerifyResponse.recent_changes := [] |},
        {| dir_db := [("tree", [("/tmp/tree/a/x.txt", "x")])];
           change_log := [];
           observer := ["/tmp/tree"];
           stdout := [] |})
  /\ hash_file env_tree "/tmp/tree/b/y.txt" = Return "y"
  /\ In "/tmp/tree/b/y.txt" (rglob env_tree "/tmp/tree")
  /\ ["/tmp/tree/b/y.txt"] <> @nil string.
Proof.
  split; [vm_compute; reflexivity|].
  split; [vm_compute; reflexivity|].
  split; [vm_compute; reflexivity|].
  split; [vm_compute; reflexivity|].
  split; [simpl; auto|].
  discriminate.
Qed.

(** The second call can report changes as well.  [/srv/empty] is
    registered while empty, in a process whose current directory holds
    files in subdirectories only: the first call rescans the current
    directory and reports both files as added, the second rescans [docs],
    the directory of the first of them, and reports the other as
    deleted. *)
Example verify_twice_both_calls_report :
  fst (register_directory env_cwd_tree "/srv/empty" initial_state)
  = Return {| RegisterResponse.status := "success";
              RegisterResponse.directory := "/srv/empty";
              RegisterResponse.files_registered := 0 |}
  /\ fst (verify_changes env_cwd_tree "empty"
            (exec (register_directory env_cwd_tree "/srv/empty") initial_state))
     = Return {| VerifyResponse.directory := "";
                 VerifyResponse.added := ["docs/a.md"; "src/b.py"];
                 VerifyResponse.deleted := [];
                 VerifyResponse.modified := [];
                 VerifyResponse.recent_changes := [] |}
  /\ fst (verify_changes env_cwd_tree "empty"
            (exec (verify_changes env_cwd_tree "empty")
               (exec (register_directory env_cwd_tree "/srv/empty")
                     initial_state)))
     = Return {| VerifyResponse.directory := "docs";
                 VerifyResponse.added := [];
                 VerifyResponse.deleted := ["src/b.py"];
                 VerifyResponse.modified := [];
                 VerifyResponse.recent_changes := [] |}.
Proof. repeat split; vm_compute; reflexivity. Qed.

(** X13. Registration followed by two [verify_changes] calls, all on
    one file system on which [is_file()] raises on no entry of the
    root's listing: when the first path registered has the registered
    root as its directory name, both calls rescan that root and report
    nothing added, deleted or modified. *)
Lemma verify_twice_after_register env dir_path s :
  let root := normpath dir_path in
  let dir_name := basename root in
  isdir env root = true ->
  listing_ok env (rglob env root) = true ->
  verify_dir_path (scan env (rglob env root) []) = root ->
  exists r0 s0 r1 s1 r2 s2,
    register_directory env dir_path s = (Return r0, s0)
    /\ verify_changes env dir_name s0 = (Return r1, s1)
    /\ verify_changes env dir_name s1 = (Return r2, s2)
    /\ VerifyResponse.directory r1 = root
    /\ VerifyResponse.directory r2 = root
    /\ VerifyResponse.added r1 = [] /\ VerifyResponse.deleted r1 = []
    /\ VerifyResponse.modified r1 = []
    /\ VerifyResponse.added r2 = [] /\ VerifyResponse.deleted r2 = []
    /\ VerifyResponse.modified r2 = [].
Proof.
  cbv zeta. intros Hdir Hok Hroot.
  set (root := normpath dir_path) in *.
  set (snapshot := scan env (rglob env root) []) in *.
  pose proof (register_directory_spec env dir_path s Hdir Hok) as Hreg.
  cbv zeta in Hreg. fold root in Hreg. fold snapshot in Hreg.
  set (s0 := {| dir_db := dict_set (dir_db s) (basename root) snapshot;
                change_log := change_log s;
                observer := observer s ++ [root];
                stdout := stdout s ++ scan_log env (rglob env root) |}) in *.
  assert (Hget0 : dict_get (dir_db s0) (basename root) = Some snapshot)
    by apply dict_get_set_same.
  assert (Hok' : listing_ok env (rglob env (verify_dir_path snapshot)) = true)
    by (now rewrite Hroot).
  pose proof (verify_changes_spec env (basename root) s0 Hget0 Hok') as Hv1.
  cbv zeta in Hv1. rewrite Hroot in Hv1. fold snapshot in Hv1.
  set (s1 := {| dir_db := dict_set (dir_db s0) (basename root) snapshot;
                change_log := change_log s0;
                observer := observer s0;
                stdout := stdout s0 ++ scan_log env (rglob env root) |}) in *.
  assert (Hget1 : dict_get (dir_db s1) (basename root) = Some snapshot)
    by apply dict_get_set_same.
  pose proof (verify_changes_spec env (basename root) s1 Hget1 Hok') as Hv2.
  cbv zeta in Hv2. rewrite Hroot in Hv2. fold snapshot in Hv2.
  destruct (diff_same_mapping (same_mapping_refl snapshot)) as (Ha & Hd & Hm).
  eexists _, s0, _, s1, _, _.
  split; [exact Hreg|]. split; [exact Hv1|]. split; [exact Hv2|].
  cbn [VerifyResponse.directory VerifyResponse.added VerifyResponse.deleted
       VerifyResponse.modified].
  repeat split; assumption.
Qed.

(** ** The representation invariant *)

Lemma dict_wf_nil {V : Type} : dict_wf (@nil (string * V)).
Proof. constructor. Qed.

Lemma scan_wf env paths : forall acc, dict_wf acc -> dict_wf (scan env paths acc).
Proof.
  induction paths as [|p paths IH]; intros acc Hwf; simpl; [assumption|].
  destruct (is_regular env p); [|now apply IH].
  destruct (hash_file env p); [|now apply IH].
  apply IH. now apply dict_wf_set.
Qed.

Lemma dict_get_set_inv {V : Type} (d : dict V) k v k' v' :
  dict_get (dict_set d k v) k' = Some v' ->
  (k' = k /\ v' = v) \/ dict_get d k' = Some v'.
Proof.
  destruct (String.eqb_spec k' k) as [->|Hne].
  - rewrite dict_get_set_same. intros [= ->]. now left.
  - rewrite dict_get_set_other by assumption. now right.
Qed.

Lemma state_wf_dir_db s s' : dir_db s' = dir_db s -> state_wf s -> state_wf s'.
Proof. unfold state_wf. now intros ->. Qed.

Lemma state_wf_setitem s s' dir_name snapshot :
  dir_db s' = dict_set (dir_db s) dir_name snapshot ->
  state_wf s -> dict_wf snapshot -> state_wf s'.
Proof.
  unfold state_wf. intros -> [Hdb Hsnaps] Hwf. split.
  - now apply dict_wf_set.
  - intros id snap Hget. apply dict_get_set_inv in Hget.
    destruct Hget as [[_ ->]|Hget]; [assumption | eauto].
Qed.

Lemma initial_state_wf : state_wf initial_state.
Proof. split; [constructor | discriminate]. Qed.

(** One turn of the loop of [list_files] only prints. *)
Lemma list_body_prints env file_details item s :
  exists r lines,
    list_body env file_details item s = (Return r, printed s lines).
Proof.
  destruct item as [filepath filehash].
  unfold list_body, try_except, bind, lift, os_stat, print, ret.
  destruct (stat env filepath) as [msg|st].
  - eexists _, [_]. reflexivity.
  - eexists _, []. now rewrite printed_nil.
Qed.

(** The loop of [list_files] only prints. *)
Lemma list_loop_prints env items : forall file_details s,
  exists r lines,
    for_in items file_details (list_body env) s = (Return r, printed s lines).
Proof.
  induction items as [|item items IH]; intros file_details s.
  - exists file_details, []. simpl. unfold ret. now rewrite printed_nil.
  - simpl. unfold bind.
    destruct (list_body_prints env file_details item s) as (r & l & ->).
    destruct (IH r (printed s l)) as (r' & l' & ->).
    exists r', (l ++ l'). now rewrite printed_app.
Qed.

(** [list_files] never touches [dir_db], [change_log] or [observer]. *)
Lemma list_files_frame env dir_name s :
  exists lines, exec (list_files env dir_name) s = printed s lines.
Proof.
  unfold exec, list_files, bind, dir_db_contains, dir_db_getitem, dict_mem.
  destruct (dict_get (dir_db s) dir_name) as [snapshot|] eqn:Hget; simpl.
  - rewrite Hget.
    destruct (negb _).
    + exists []. now rewrite printed_nil.
    + destruct (list_loop_prints env snapshot [] s) as (r & lines & ->).
      now exists lines.
  - exists []. now rewrite printed_nil.
Qed.

(** Every handler and the watcher callback keep [dir_db] and its
    snapshots free of repeated keys, whatever they are given and whether
    they return or raise. *)
Theorem handlers_preserve_state_wf env s :
  state_wf s ->
  (forall dir_path, state_wf (exec (register_directory env dir_path) s))
  /\ (forall dir_name, state_wf (exec (verify_changes env dir_name) s))
  /\ (forall dir_name, state_wf (exec (list_files env dir_name) s))
  /\ (forall event, state_wf (exec (on_modified env event) s)).
Proof.
  intros Hwf. split; [|split; [|split]].
  - intros dir_path. unfold exec.
    destruct (isdir env (normpath dir_path)) eqn:Hdir.
    + pose proof (register_directory_cases env dir_path s Hdir) as Hreg.
      cbv zeta in Hreg. rewrite Hreg.
      destruct (snd (until_is_file_error env (rglob env (normpath dir_path))));
        (eapply state_wf_setitem; [reflexivity | assumption |];
         apply scan_wf, dict_wf_nil).
    + now rewrite register_directory_invalid.
  - intros dir_name. unfold exec.
    destruct (dict_get (dir_db s) dir_name) as [original|] eqn:Hget.
    + pose proof (verify_changes_cases env dir_name s Hget) as Hv.
      cbv zeta in Hv. rewrite Hv.
      destruct (snd (until_is_file_error env
                       (rglob env (verify_dir_path original)))).
      * eapply state_wf_dir_db; [reflexivity | assumption].
      * eapply state_wf_setitem; [reflexivity | assumption |].
        apply scan_wf, dict_wf_nil.
    + apply dict_get_None in Hget.
      now rewrite verify_changes_unregistered.
  - intros dir_name.
    destruct (list_files_frame env dir_name s) as (lines & ->).
    eapply state_wf_dir_db; [reflexivity | assumption].
  - intros event. unfold exec. rewrite on_modified_cases.
    destruct (is_directory event); [assumption|].
    destruct (dict_get (dir_db s) (basename (dirname (src_path event))))
      as [snapshot|] eqn:Hget; [|assumption].
    destruct (hash_file env (src_path event)); [|assumption].
    destruct (get_differs _ _); [|assumption].
    eapply state_wf_setitem; [reflexivity | assumption |].
    apply dict_wf_set. destruct Hwf as [_ Hsnaps]. eauto.
Qed.

(** ** [sorted] *)

Section SortedFacts.
Context {A : Type} (key : A -> string).

Lemma string_leb_refl (x : string) : String.leb x x = true.
Proof. now destruct (String.leb_total x x). Qed.

Lemma insert_by_perm x l : Permutation (Py.insert_by key x l) (x :: l).
Proof.
  induction l as [|y l IH]; simpl; [reflexivity|].
  destruct (String.leb (key x) (key y)); [reflexivity|].
  rewrite IH. apply perm_swap.
Qed.

Lemma sorted_perm l : Permutation (Py.sorted key l) l.
Proof.
  induction l as [|x l IH]; simpl; [reflexivity|].
  fold (Py.sorted key l). rewrite insert_by_perm. now constructor.
Qed.

Let key_le (a b : A) : Prop := String.leb (key a) (key b) = true.

Lemma insert_by_sorted x l :
  Sorted key_le l -> Sorted key_le (Py.insert_by key x l).
Proof.
  induction l as [|y l IH]; intros Hs; simpl.
  - repeat constructor.
  - destruct (String.leb (key x) (key y)) eqn:E.
    + constructor; [assumption | now constructor].
    + inversion Hs as [|? ? Hs' Hhd]; subst.
      constructor; [now apply IH|].
      assert (Hyx : key_le y x).
      { unfold key_le. destruct (String.leb_total (key x) (key y)); congruence. }
      destruct l as [|z l]; simpl.
      * now constructor.
      * destruct (String.leb (key x) (key z)).
        -- now constructor.
        -- inversion Hhd; subst. now constructor.
Qed.

Lemma sorted_sorted l : Sorted key_le (Py.sorted key l).
Proof.
  induction l as [|x l IH]; simpl; [constructor|].
  now apply insert_by_sorted.
Qed.

(** Stability: the items with a given key come out in the order they
    went in. *)
Lemma insert_by_stable k x l :
  filter (fun a => String.eqb (key a) k) (Py.insert_by key x l)
  = filter (fun a => String.eqb (key a) k) (x :: l).
Proof.
  induction l as [|y l IH]; [reflexivity|].
  cbn [Py.insert_by].
  destruct (String.leb (key x) (key y)) eqn:E; [reflexivity|].
  cbn [filter] in *. rewrite IH.
  destruct (String.eqb_spec (key x) k) as [Hx|Hx];
    destruct (String.eqb_spec (key y) k) as [Hy|Hy]; try reflexivity.
  rewrite Hx, Hy, string_leb_refl in E. discriminate.
Qed.

Lemma sorted_stable k l :
  filter (fun a => String.eqb (key a) k) (Py.sorted key l)
  = filter (fun a => String.eqb (key a) k) l.
Proof.
  induction l as [|x l IH]; [reflexivity|].
  cbn [Py.sorted fold_right]. fold (Py.sorted key l).
  rewrite insert_by_stable. cbn [filter]. now rewrite IH.
Qed.
End SortedFacts.

(** ** The listing loop *)

Lemma list_loop env items : forall file_details s,
  for_in items file_details (list_body env) s
  = (Return (file_details ++ list_details env items),
     printed s (list_log env items)).
Proof.
  induction items as [|[filepath filehash] items IH]; intros file_details s.
  - simpl. unfold ret. now rewrite app_nil_r, printed_nil.
  - cbn [for_in list_details list_log]. unfold bind at 1.
    unfold list_body at 1.
    unfold try_except, bind, lift, os_stat, print, ret.
    destruct (stat env filepath) as [msg|file_stats].
    + rewrite IH. f_equal. apply (printed_app s [_]).
    + rewrite IH. now rewrite <- app_assoc.
Qed.

Lemma list_details_In env items d :
  In d (list_details env items)
  <-> exists filepath filehash file_stats,
        In (filepath, filehash) items
        /\ stat env filepath = inr file_stats
        /\ d = file_detail filepath filehash file_stats.
Proof.
  induction items as [|[p h] items IH]; simpl.
  - split; [contradiction | intros (? & ? & ? & [] & _)].
  - destruct (stat env p) as [msg|st] eqn:Hst; simpl; rewrite IH; split.
    + intros (p' & h' & st' & Hin & Hs & ->). exists p', h', st'. auto.
    + intros (p' & h' & st' & [Heq|Hin] & Hs & ->).
      * inversion Heq; subst. congruence.
      * exists p', h', st'. auto.
    + intros [<-|(p' & h' & st' & Hin & Hs & ->)].
      * exists p, h, st. auto.
      * exists p', h', st'. auto.
    + intros (p' & h' & st' & [Heq|Hin] & Hs & ->).
      * inversion Heq; subst. left. congruence.
      * right. exists p', h', st'. auto.
Qed.

(** ** The rescan against the file system *)

Lemma readable_hash env p :
  readable env p = true <->
  is_file env p = inr true /\ exists h, hash_file env p = Return h.
Proof.
  unfold readable, is_regular.
  destruct (is_file env p) as [msg|[|]], (hash_file env p) as [h|e]; simpl;
    split; try discriminate; eauto;
    intros [Hf [h' Hh]]; discriminate.
Qed.

(** The paths a scan leaves in the snapshot are those it started with
    and the listed files that are readable. *)
Lemma scan_keys_In env paths : forall acc p,
  In p (dict_keys (scan env paths acc))
  <-> In p (dict_keys acc) \/ (In p paths /\ readable env p = true).
Proof.
  induction paths as [|q paths IH]; intros acc p.
  - simpl. tauto.
  - destruct (readable env q) eqn:Hr.
    + destruct (scan_readable_head env q paths acc Hr) as (h & _ & ->).
      rewrite IH, dict_keys_set_In. simpl. split.
      * intros [[->|Hin]|[Hin Hp]]; auto.
      * intros [Hin|[[<-|Hin] Hp]]; auto.
    + rewrite scan_unreadable_head by assumption. rewrite IH. simpl. split.
      * intros [Hin|[Hin Hp]]; auto.
      * intros [Hin|[[<-|Hin] Hp]]; auto. congruence.
Qed.

(** A digest found in a fresh scan is the digest of the file now. *)
Lemma scan_get_fresh env paths p h :
  dict_get (scan env paths []) p = Some h -> hash_file env p = Return h.
Proof.
  intros Hget. apply scan_get in Hget.
  destruct Hget as [Hget|]; [discriminate | assumption].
Qed.

Lemma scan_lookup env paths p :
  In p paths -> readable env p = true ->
  exists h, dict_get (scan env paths []) p = Some h
            /\ hash_file env p = Return h.
Proof.
  intros Hin Hr.
  assert (Hkey : In p (dict_keys (scan env paths [])))
    by (apply scan_keys_In; auto).
  apply dict_mem_In, dict_mem_get in Hkey. destruct Hkey as [h Hget].
  exists h. split; [assumption | now apply scan_get_fresh in Hget].
Qed.

(** X6. What [verify_changes] reports, in terms of the stored snapshot
    and the file system it rescans, when [is_file()] raises on no entry
    found under the directory taken from the snapshot (otherwise the
    call raises, see [verify_changes_cases]).  With [listing] those
    entries: a path is [added] iff it
    is not in the snapshot and is a listed regular file that hashes; it
    is [deleted] iff it is in the snapshot and is not such a file (not
    listed any more, not a regular file, or unreadable); it is
    [modified] iff it is in the snapshot with one digest and is a listed
    regular file that now hashes to another. *)
Theorem verify_report_against_file_system env dir_name s original :
  dict_get (dir_db s) dir_name = Some original ->
  listing_ok env (rglob env (verify_dir_path original)) = true ->
  exists r s',
    verify_changes env dir_name s = (Return r, s')
    /\ (forall F,
          In F (VerifyResponse.added r)
          <-> ~ In F (dict_keys original)
              /\ In F (rglob env (verify_dir_path original))
              /\ readable env F = true)
    /\ (forall F,
          In F (VerifyResponse.deleted r)
          <-> In F (dict_keys original)
              /\ ~ (In F (rglob env (verify_dir_path original))
                    /\ readable env F = true))
    /\ (forall F,
          In F (VerifyResponse.modified r)
          <-> exists h h',
                dict_get original F = Some h
                /\ In F (rglob env (verify_dir_path original))
                /\ is_file env F = inr true
                /\ hash_file env F = Return h'
                /\ h <> h').
Proof.
  intros Hget Hok.
  pose proof (verify_changes_spec env dir_name s Hget Hok) as Hv.
  cbv zeta in Hv. rewrite Hv. eexists _, _. split; [reflexivity|].
  cbn [VerifyResponse.added VerifyResponse.deleted VerifyResponse.modified].
  set (listing := rglob env (verify_dir_path original)).
  assert (Hcur : forall F, In F (dict_keys (scan env listing []))
                           <-> In F listing /\ readable env F = true).
  { intros F. rewrite scan_keys_In. simpl. tauto. }
  split; [|split].
  - intros F. rewrite added_of_In, Hcur. tauto.
  - intros F. rewrite deleted_of_In, Hcur. tauto.
  - intros F. rewrite modified_of_In, Hcur. split.
    + intros (Ho & [Hl Hr] & Hne).
      apply dict_mem_In, dict_mem_get in Ho. destruct Ho as [h Ho].
      destruct (scan_lookup env listing F Hl Hr) as (h' & Hc & Hh).
      exists h, h'. apply readable_hash in Hr. destruct Hr as [Hf _].
      repeat split; auto. intros ->. apply Hne. congruence.
    + intros (h & h' & Ho & Hl & Hf & Hh & Hne).
      assert (Hr : readable env F = true) by (apply readable_hash; eauto).
      split; [apply dict_mem_In, dict_mem_get; eauto|]. split; [auto|].
      destruct (scan_lookup env listing F Hl Hr) as (h'' & Hc & Hh').
      rewrite Hc, Ho. intros [= ->]. congruence.
Qed.

Lemma verify_report_against_file_system_witness :
  dict_get (dir_db state_proj) "proj"
  = Some [("/tmp/proj/a.txt", "x"); ("/tmp/proj/b.bin", "GIF89a")]
  /\ exists r s',
      verify_changes (env_proj_changed "y") "proj" state_proj = (Return r, s')
      /\ In "/tmp/proj/c.txt" (VerifyResponse.added r)
      /\ In "/tmp/proj/b.bin" (VerifyResponse.deleted r)
      /\ In "/tmp/proj/a.txt" (VerifyResponse.modified r).
Proof.
  split; [reflexivity|].
  destruct (verify_report_against_file_system (env_proj_changed "y") "proj"
              state_proj
              (original := [("/tmp/proj/a.txt", "x");
                            ("/tmp/proj/b.bin", "GIF89a")]) eq_refl eq_refl)
    as (r & s' & Hv & Hadd & Hdel & Hmod).
  exists r, s'. split; [exact Hv|]. split; [|split].
  - apply Hadd. split; [|split].
    + simpl. intuition discriminate.
    + simpl. auto.
    + reflexivity.
  - apply Hdel. split.
    + simpl. auto.
    + intros [_ Hr]. discriminate Hr.
  - apply Hmod. exists "x", "y".
    split; [reflexivity|]. split; [simpl; auto|].
    split; [reflexivity|]. split; [reflexivity | discriminate].
Defined.

(** ** Counting the report *)

Lemma filter_split_length {A} (f : A -> bool) (l : list A) :
  List.length (filter f l) + List.length (filter (fun x => negb (f x)) l)
  = List.length l.
Proof.
  induction l as [|x l IH]; [reflexivity|].
  simpl. destruct (f x); simpl; lia.
Qed.

(** Two snapshots have as many paths of the first in the second as paths
    of the second in the first. *)
Lemma common_keys_length (d1 d2 : dict string) :
  dict_wf d1 -> dict_wf d2 ->
  List.length (filter (fun f => dict_mem f d2) (dict_keys d1))
  = List.length (filter (fun f => dict_mem f d1) (dict_keys d2)).
Proof.
  unfold dict_wf. intros H1 H2.
  apply Nat.le_antisymm; apply NoDup_incl_length;
    try (now apply NoDup_filter);
    intros x; rewrite !filter_In, !dict_mem_In; tauto.
Qed.

Lemma diff_counts_balance (original current : dict string) :
  dict_wf original -> dict_wf current ->
  List.length current + List.length (deleted_of original current)
  = List.length original + List.length (added_of original current).
Proof.
  intros Ho Hc. unfold deleted_of, added_of.
  pose proof (filter_split_length (fun f => dict_mem f current)
                (dict_keys original)) as Eo.
  pose proof (filter_split_length (fun f => dict_mem f original)
                (dict_keys current)) as Ec.
  pose proof (common_keys_length Ho Hc) as Ecommon.
  rewrite (dict_length_keys original), (dict_length_keys current). lia.
Qed.

Lemma filter_length_le' {A} (f : A -> bool) (l : list A) :
  List.length (filter f l) <= List.length l.
Proof.
  induction l as [|x l IH]; [auto|]. simpl. destruct (f x); simpl; lia.
Qed.

(** X5. The report of [verify_changes] balances, when [is_file()]
    raises on no entry of the rescanned listing (otherwise the call
    raises and stores nothing): the number of paths in the new snapshot
    plus the number reported deleted equals the number in the old
    snapshot plus the number reported added; and the paths reported
    modified are at most those kept from the old snapshot. *)
Theorem verify_counts_balance env dir_name s original :
  state_wf s ->
  dict_get (dir_db s) dir_name = Some original ->
  listing_ok env (rglob env (verify_dir_path original)) = true ->
  exists r s' current,
    verify_changes env dir_name s = (Return r, s')
    /\ dict_get (dir_db s') dir_name = Some current
    /\ List.length current + List.length (VerifyResponse.deleted r)
       = List.length original + List.length (VerifyResponse.added r)
    /\ List.length (VerifyResponse.modified r)
         + List.length (VerifyResponse.deleted r)
       <= List.length original.
Proof.
  intros [_ Hsnaps] Hget Hok.
  pose proof (verify_changes_spec env dir_name s Hget Hok) as Hv.
  cbv zeta in Hv. rewrite Hv. eexists _, _, _.
  split; [reflexivity|]. split; [apply dict_get_set_same|].
  cbn [VerifyResponse.added VerifyResponse.deleted VerifyResponse.modified].
  set (current := scan env (rglob env (verify_dir_path original)) []).
  assert (Ho : dict_wf original) by eauto.
  assert (Hc : dict_wf current) by apply scan_wf, dict_wf_nil.
  split; [now apply diff_counts_balance|].
  (* modified paths are among those of [current] found in [original] *)
  assert (Hmod : List.length (modified_of original current)
                 <= List.length (filter (fun f => dict_mem f original)
                                        (dict_keys current))).
  { unfold modified_of.
    induction (dict_keys current) as [|x l IH]; [auto|].
    simpl. destruct (dict_mem x original); simpl.
    - destruct (getitem_differs current original x); simpl; lia.
    - exact IH. }
  pose proof (common_keys_length Ho Hc) as Ecommon.
  pose proof (filter_split_length (fun f => dict_mem f current)
                (dict_keys original)) as Eo.
  unfold deleted_of. rewrite (dict_length_keys original). lia.
Qed.

Lemma verify_counts_balance_witness :
  exists r s' current,
    verify_changes (env_proj_changed "y") "proj" state_proj = (Return r, s')
    /\ dict_get (dir_db s') "proj" = Some current
    /\ List.length current + List.length (VerifyResponse.deleted r)
       = 2 + List.length (VerifyResponse.added r)
    /\ List.length (VerifyResponse.modified r)
         + List.length (VerifyResponse.deleted r)
       <= 2.
Proof.
  apply (verify_counts_balance (env_proj_changed "y") "proj" (s := state_proj)
           (original := [("/tmp/proj/a.txt", "x"); ("/tmp/proj/b.bin", "GIF89a")])).
  - apply (proj1 (handlers_preserve_state_wf (env_proj "x") initial_state_wf)).
  - reflexivity.
  - reflexivity.
Defined.

(** ** More on the watcher *)

(** After a readable file event under a registered name, the snapshot
    holds the file's current digest. *)
Lemma on_modified_stores_digest env filepath s snapshot new_hash :
  dict_get (dir_db s) (basename (dirname filepath)) = Some snapshot ->
  hash_file env filepath = Return new_hash ->
  exists snapshot',
    dict_get (dir_db (exec (on_modified env
                              {| is_directory := false; src_path := filepath |}) s))
             (basename (dirname filepath)) = Some snapshot'
    /\ dict_get snapshot' filepath = Some new_hash.
Proof.
  intros Hget Hhash. unfold exec. rewrite on_modified_cases.
  cbn [is_directory src_path]. rewrite Hget, Hhash.
  destruct (get_differs (dict_get snapshot filepath) new_hash) eqn:Hd.
  - exists (dict_set snapshot filepath new_hash). cbn [snd dir_db].
    now rewrite !dict_get_set_same.
  - exists snapshot. cbn [snd]. split; [assumption|].
    now apply get_differs_false.
Qed.

(** X9. The watcher only ever adds: whatever the event, [on_modified]
    appends at most one entry to the change log and keeps the earlier
    ones, leaves the scheduled watches and the output alone, registers no
    new directory name, and keeps every path of every snapshot (a deleted
    file stays in the snapshot until the next [verify_changes]). *)
Theorem on_modified_only_adds env event s :
  (exists entries,
      change_log (exec (on_modified env event) s) = change_log s ++ entries
      /\ List.length entries <= 1)
  /\ observer (exec (on_modified env event) s) = observer s
  /\ stdout (exec (on_modified env event) s) = stdout s
  /\ dict_keys (dir_db (exec (on_modified env event) s)) = dict_keys (dir_db s)
  /\ (forall dir_name snapshot,
         dict_get (dir_db s) dir_name = Some snapshot ->
         exists snapshot',
           dict_get (dir_db (exec (on_modified env event) s)) dir_name
           = Some snapshot'
           /\ forall p, In p (dict_keys snapshot) -> In p (dict_keys snapshot')).
Proof.
  assert (Hsame : (exists entries, change_log s = change_log s ++ entries
                                   /\ List.length entries <= 1)
                  /\ observer s = observer s /\ stdout s = stdout s
                  /\ dict_keys (dir_db s) = dict_keys (dir_db s)
                  /\ (forall dir_name snapshot,
                         dict_get (dir_db s) dir_name = Some snapshot ->
                         exists snapshot',
                           dict_get (dir_db s) dir_name = Some snapshot'
                           /\ forall p, In p (dict_keys snapshot) ->
                                        In p (dict_keys snapshot'))).
  { split; [exists []; rewrite app_nil_r; auto|]. repeat split; eauto. }
  unfold exec. rewrite on_modified_cases.
  destruct (is_directory event); [exact Hsame|].
  destruct (dict_get (dir_db s) (basename (dirname (src_path event))))
    as [snap|] eqn:Hget; [|exact Hsame].
  destruct (hash_file env (src_path event)) as [h|e]; [|exact Hsame].
  destruct (get_differs _ _); [|exact Hsame].
  cbn [snd change_log observer stdout dir_db].
  split; [eexists [_]; split; [reflexivity | simpl; lia]|].
  split; [reflexivity|]. split; [reflexivity|]. split.
  - apply dict_keys_set_old. apply dict_mem_get. eauto.
  - intros dir_name snapshot Hsnap.
    destruct (String.eqb_spec dir_name (basename (dirname (src_path event))))
      as [->|Hne].
    + rewrite dict_get_set_same. eexists. split; [reflexivity|].
      intros p Hp. apply dict_keys_set_In. right. congruence.
    + rewrite dict_get_set_other by assumption. eauto.
Qed.

(** X10. Handling the same event again on the same file system changes
    nothing more: the second call returns (or raises) as the first did
    and leaves the state the first call left, so a repeated notification
    adds no second change-log entry. *)
Theorem on_modified_idempotent env event s :
  on_modified env event (exec (on_modified env event) s)
  = (fst (on_modified env event s), exec (on_modified env event) s).
Proof.
  unfold exec. rewrite (on_modified_cases env event s).
  destruct (is_directory event) eqn:Hdir.
  { cbn [fst snd]. rewrite on_modified_cases. now rewrite Hdir. }
  destruct (dict_get (dir_db s) (basename (dirname (src_path event))))
    as [snap|] eqn:Hget.
  2:{ cbn [fst snd]. rewrite on_modified_cases. now rewrite Hdir, Hget. }
  destruct (hash_file env (src_path event)) as [h|e] eqn:Hhash.
  2:{ cbn [fst snd]. rewrite on_modified_cases.
      now rewrite Hdir, Hget, Hhash. }
  destruct (get_differs (dict_get snap (src_path event)) h) eqn:Hd.
  2:{ cbn [fst snd]. rewrite on_modified_cases.
      now rewrite Hdir, Hget, Hhash, Hd. }
  cbn [fst snd]. rewrite on_modified_cases. cbn [dir_db].
  rewrite Hdir, Hhash, !dict_get_set_same.
  cbn [get_differs]. now rewrite String.eqb_refl.
Qed.

(** X11. Once the watcher has handled a modification of a readable file
    under a registered name, a [verify_changes] of that name on the same
    file system reports the file neither as modified nor as added: the
    snapshot already holds its current digest.  This holds of every such
    call that returns, and the call returns when [is_file()] raises on
    no entry of the listing it rescans. *)
Theorem on_modified_then_verify_quiet env filepath s snapshot new_hash :
  let dir_name := basename (dirname filepath) in
  let event := {| is_directory := false; src_path := filepath |} in
  dict_get (dir_db s) dir_name = Some snapshot ->
  hash_file env filepath = Return new_hash ->
  (forall r s',
      verify_changes env dir_name (exec (on_modified env event) s)
      = (Return r, s') ->
      ~ In filepath (VerifyResponse.modified r)
      /\ ~ In filepath (VerifyResponse.added r))
  /\ (forall snapshot',
         dict_get (dir_db (exec (on_modified env event) s)) dir_name
         = Some snapshot' ->
         listing_ok env (rglob env (verify_dir_path snapshot')) = true ->
         exists r s',
           verify_changes env dir_name (exec (on_modified env event) s)
           = (Return r, s')
           /\ ~ In filepath (VerifyResponse.modified r)
           /\ ~ In filepath (VerifyResponse.added r)).
Proof.
  cbv zeta. intros Hget Hhash.
  destruct (on_modified_stores_digest env filepath s Hget Hhash)
    as (snapshot1 & Hget1 & Hstored).
  assert (Hquiet : forall listed,
             ~ In filepath (modified_of snapshot1 (scan env listed []))
             /\ ~ In filepath (added_of snapshot1 (scan env listed []))).
  { intros listed. split.
    - rewrite modified_of_In. intros (_ & Hcur & Hne).
      apply dict_mem_In, dict_mem_get in Hcur. destruct Hcur as [h Hcur].
      pose proof (scan_get_fresh _ _ _ Hcur) as Hh.
      apply Hne. congruence.
    - rewrite added_of_In. intros [_ Hnot]. apply Hnot.
      apply dict_mem_In, dict_mem_get. eauto. }
  split.
  - intros r s' Hv.
    pose proof (verify_changes_cases env _ _ Hget1) as Hc.
    cbv zeta in Hc. rewrite Hc in Hv.
    destruct (snd (until_is_file_error env
                     (rglob env (verify_dir_path snapshot1))));
      [discriminate|].
    inversion Hv; subst.
    cbn [VerifyResponse.added VerifyResponse.modified]. apply Hquiet.
  - intros snapshot' Hget' Hok.
    assert (snapshot' = snapshot1) by congruence. subst snapshot'.
    pose proof (verify_changes_spec env _ _ Hget1 Hok) as Hv.
    cbv zeta in Hv. rewrite Hv. eexists _, _. split; [reflexivity|].
    cbn [VerifyResponse.added VerifyResponse.modified]. apply Hquiet.
Qed.

Lemma on_modified_then_verify_quiet_witness :
  exists r s',
    verify_changes (env_proj "y") "proj"
      (exec (on_modified (env_proj "y")
               {| is_directory := false; src_path := "/tmp/proj/a.txt" |})
            state_proj)
    = (Return r, s')
    /\ ~ In "/tmp/proj/a.txt" (VerifyResponse.modified r)
    /\ ~ In "/tmp/proj/a.txt" (VerifyResponse.added r).
Proof.
  apply (proj2 (on_modified_then_verify_quiet (env_proj "y") "/tmp/proj/a.txt"
                  state_proj
                  (snapshot := [("/tmp/proj/a.txt", "x");
                                ("/tmp/proj/b.bin", "GIF89a")])
                  (new_hash := "y") eq_refl eq_refl)
           [("/tmp/proj/a.txt", "y"); ("/tmp/proj/b.bin", "GIF89a")]).
  - reflexivity.
  - reflexivity.
Defined.

(** X12. A write that changes nothing is silent after a registration
    that returned (the path is a directory and [is_file()] raised on no
    entry of its listing): for a file that [register_directory] has just
    fingerprinted and whose parent directory's base name is the
    registered name, a modification event on the same file system leaves
    every global as registration left it (no change-log entry). *)
Theorem register_then_touch_is_silent env dir_path s filepath :
  let root := normpath dir_path in
  isdir env root = true ->
  listing_ok env (rglob env root) = true ->
  In filepath (rglob env root) ->
  readable env filepath = true ->
  basename (dirname filepath) = basename root ->
  on_modified env {| is_directory := false; src_path := filepath |}
    (exec (register_directory env dir_path) s)
  = (Return tt, exec (register_directory env dir_path) s).
Proof.
  cbv zeta. intros Hdir Hok Hin Hr Hname. unfold exec.
  pose proof (register_directory_spec env dir_path s Hdir Hok) as Hreg.
  cbv zeta in Hreg. rewrite Hreg. cbn [snd].
  destruct (scan_lookup env _ filepath Hin Hr) as (h & Hget & Hhash).
  rewrite on_modified_cases. cbn [is_directory src_path dir_db].
  rewrite Hname, dict_get_set_same, Hhash, Hget.
  cbn [get_differs]. now rewrite String.eqb_refl.
Qed.

Lemma register_then_touch_is_silent_witness :
  on_modified (env_proj "x")
    {| is_directory := false; src_path := "/tmp/proj/a.txt" |}
    (exec (register_directory (env_proj "x") "/tmp/proj") initial_state)
  = (Return tt,
     exec (register_directory (env_proj "x") "/tmp/proj") initial_state).
Proof.
  apply (register_then_touch_is_silent (env_proj "x") "/tmp/proj"
           initial_state "/tmp/proj/a.txt").
  - reflexivity.
  - reflexivity.
  - simpl. auto.
  - reflexivity.
  - reflexivity.
Defined.

Lemma verify_twice_after_register_witness :
  exists r0 s0 r1 s1 r2 s2,
    register_directory (env_proj "x") "/tmp/proj" initial_state = (Return r0, s0)
    /\ verify_changes (env_proj "x") "proj" s0 = (Return r1, s1)
    /\ verify_changes (env_proj "x") "proj" s1 = (Return r2, s2)
    /\ VerifyResponse.directory r1 = "/tmp/proj"
    /\ VerifyResponse.directory r2 = "/tmp/proj"
    /\ VerifyResponse.added r1 = [] /\ VerifyResponse.deleted r1 = []
    /\ VerifyResponse.modified r1 = []
    /\ VerifyResponse.added r2 = [] /\ VerifyResponse.deleted r2 = []
    /\ VerifyResponse.modified r2 = [].
Proof.
  apply (verify_twice_after_register (env_proj "x") "/tmp/proj" initial_state).
  - reflexivity.
  - reflexivity.
  - reflexivity.
Defined.

(** ** More on registration *)

(** X2. A path that does not normalise to an existing directory is
    rejected: [register_directory] raises [HTTPException(400, "Invalid
    directory path")] before touching anything, so an earlier snapshot
    under the same name, the watches and the change log stay as they
    were. *)
Theorem register_invalid_directory_rejected env dir_path s :
  isdir env (normpath dir_path) = false ->
  register_directory env dir_path s
  = (Raise (HTTPException 400 "Invalid directory path"), s).
Proof.
  intros Hdir. unfold register_directory. rewrite Hdir. reflexivity.
Qed.

Lemma register_invalid_directory_rejected_witness :
  isdir (env_proj "x") (normpath "/tmp/proj/a.txt") = false
  /\ register_directory (env_proj "x") "/tmp/proj/a.txt" state_proj
     = (Raise (HTTPException 400 "Invalid directory path"), state_proj).
Proof.
  split; [reflexivity|].
  apply (register_invalid_directory_rejected (env_proj "x") "/tmp/proj/a.txt").
  reflexivity.
Defined.

(** X3. The catalog is keyed by base name only.  When both
    registrations return ([is_file()] raises on no entry of either
    listing), registering a second
    directory whose normalised path has the same base name as an earlier
    one (or the same directory again) adds no new name: the snapshot
    under that name becomes the scan of the second directory alone, and
    a further handler is scheduled, so both roots are watched (the same
    root twice when it is registered twice). *)
Theorem register_same_name_overwrites env dir_path1 dir_path2 s :
  let root1 := normpath dir_path1 in
  let root2 := normpath dir_path2 in
  let s1 := exec (register_directory env dir_path1) s in
  let s2 := exec (register_directory env dir_path2) s1 in
  isdir env root1 = true ->
  isdir env root2 = true ->
  listing_ok env (rglob env root1) = true ->
  listing_ok env (rglob env root2) = true ->
  basename root1 = basename root2 ->
  dict_get (dir_db s2) (basename root1)
  = Some (scan env (rglob env root2) [])
  /\ dict_keys (dir_db s2) = dict_keys (dir_db s1)
  /\ observer s2 = observer s ++ [root1; root2]
  /\ change_log s2 = change_log s.
Proof.
  cbv zeta. intros Hdir1 Hdir2 Hok1 Hok2 Hname. unfold exec.
  pose proof (register_directory_spec env dir_path1 s Hdir1 Hok1) as Hreg1.
  cbv zeta in Hreg1. rewrite Hreg1. cbn [snd].
  match goal with |- context [register_directory env dir_path2 ?s1] =>
    pose proof (register_directory_spec env dir_path2 s1 Hdir2 Hok2) as Hreg2
  end.
  cbv zeta in Hreg2. rewrite Hreg2.
  cbn [snd dir_db observer change_log].
  rewrite <- Hname. split; [apply dict_get_set_same|]. split.
  - apply dict_keys_set_old. apply dict_mem_get.
    eexists. apply dict_get_set_same.
  - split; [now rewrite <- app_assoc | reflexivity].
Qed.

Lemma register_same_name_overwrites_witness :
  dict_get (dir_db (exec (register_directory env_two_proj "/b/proj")
                      (exec (register_directory env_two_proj "/a/proj")
                            initial_state)))
           "proj"
  = Some [("/b/proj/two.txt", "2")]
  /\ dict_keys (dir_db (exec (register_directory env_two_proj "/b/proj")
                          (exec (register_directory env_two_proj "/a/proj")
                                initial_state)))
     = ["proj"]
  /\ observer (exec (register_directory env_two_proj "/b/proj")
                 (exec (register_directory env_two_proj "/a/proj")
                       initial_state))
     = ["/a/proj"; "/b/proj"]
  /\ change_log (exec (register_directory env_two_proj "/b/proj")
                   (exec (register_directory env_two_proj "/a/proj")
                         initial_state))
     = [].
Proof.
  apply (register_same_name_overwrites env_two_proj "/a/proj" "/b/proj"
           initial_state).
  - reflexivity.
  - reflexivity.
  - reflexivity.
  - reflexivity.
  - reflexivity.
Defined.

(** ** What the handlers leave alone *)

(** X4. The three HTTP handlers never write the change log, and each
    touches at most the snapshot of the directory name it is about:
    [register_directory] and [verify_changes] leave the snapshots stored
    under every other name as they were, [verify_changes] schedules no
    watch, and [list_files] changes neither catalog, change log nor
    watches.  This holds whether the handler returns or raises. *)
Theorem handlers_leave_the_rest env s :
  (forall dir_path,
      change_log (exec (register_directory env dir_path) s) = change_log s
      /\ forall other,
           other <> basename (normpath dir_path) ->
           dict_get (dir_db (exec (register_directory env dir_path) s)) other
           = dict_get (dir_db s) other)
  /\ (forall dir_name,
         change_log (exec (verify_changes env dir_name) s) = change_log s
         /\ observer (exec (verify_changes env dir_name) s) = observer s
         /\ forall other,
              other <> dir_name ->
              dict_get (dir_db (exec (verify_changes env dir_name) s)) other
              = dict_get (dir_db s) other)
  /\ (forall dir_name,
         change_log (exec (list_files env dir_name) s) = change_log s
         /\ observer (exec (list_files env dir_name) s) = observer s
         /\ dir_db (exec (list_files env dir_name) s) = dir_db s).
Proof.
  split; [|split].
  - intros dir_path. unfold exec.
    destruct (isdir env (normpath dir_path)) eqn:Hdir.
    + pose proof (register_directory_cases env dir_path s Hdir) as Hreg.
      cbv zeta in Hreg. rewrite Hreg.
      destruct (snd (until_is_file_error env (rglob env (normpath dir_path))));
        cbn [snd change_log dir_db];
        (split; [reflexivity|]); intros other Hne;
        now apply dict_get_set_other.
    + rewrite register_directory_invalid by assumption. auto.
  - intros dir_name. unfold exec.
    destruct (dict_get (dir_db s) dir_name) as [original|] eqn:Hget.
    + pose proof (verify_changes_cases env dir_name s Hget) as Hv.
      cbv zeta in Hv. rewrite Hv.
      destruct (snd (until_is_file_error env
                       (rglob env (verify_dir_path original)))).
      * cbn [snd]. auto.
      * cbn [snd change_log observer dir_db].
        split; [reflexivity|]. split; [reflexivity|]. intros other Hne.
        now apply dict_get_set_other.
    + apply dict_get_None in Hget.
      rewrite verify_changes_unregistered by assumption. auto.
  - intros dir_name.
    destruct (list_files_frame env dir_name s) as (lines & ->). auto.
Qed.

Lemma handlers_leave_the_rest_witness :
  dict_get (dir_db (exec (register_directory env_tree "/tmp/tree") state_proj))
           "proj"
  = dict_get (dir_db state_proj) "proj"
  /\ dict_get (dir_db (exec (verify_changes (env_proj "y") "proj") state_busy))
              "other"
     = dict_get (dir_db state_busy) "other"
  /\ change_log (exec (verify_changes (env_proj "y") "proj") state_busy)
     = change_log state_busy.
Proof.
  split; [|split].
  - apply (proj2 (proj1 (handlers_leave_the_rest env_tree state_proj)
                    "/tmp/tree") "proj").
    discriminate.
  - apply (proj2 (proj2 (proj1 (proj2
              (handlers_leave_the_rest (env_proj "y") state_busy)) "proj"))
             "other").
    discriminate.
  - apply (proj1 (proj1 (proj2
              (handlers_leave_the_rest (env_proj "y") state_busy)) "proj")).
Defined.

(** ** Listing *)

Lemma dirname_empty : dirname "" = "".
Proof. reflexivity. Qed.

(** A path without separator has no directory part. *)
Lemma dirname_slash_free (p : string) : slash_free p -> dirname p = "".
Proof.
  intros Hp. unfold dirname, Py.rfind.
  rewrite rfind_from_absent by exact Hp.
  change (-1 + 1)%Z with (Z.of_nat 0). now rewrite slice_to_nonneg.
Qed.

(** [list_files] on a registered name, in closed form. *)
Lemma list_files_spec env dir_name s snapshot :
  dict_get (dir_db s) dir_name = Some snapshot ->
  list_files env dir_name s
  = let dir_path :=
      match dict_first_key snapshot with
      | Some f => if Py.truthy f then dirname f else ""
      | None => ""
      end in
    if negb (Py.truthy dir_path) then
      (Return (ListError "No files found in directory"), s)
    else
      (Return (ListOk dir_path
                 (List.length (list_details env snapshot))
                 (Py.sorted FileDetail.filename (list_details env snapshot))),
       printed s (list_log env snapshot)).
Proof.
  intros Hget. cbv zeta.
  unfold list_files. unfold bind at 1. unfold dir_db_contains at 1.
  unfold dict_mem. rewrite Hget. cbn [negb].
  unfold bind at 1. unfold dir_db_getitem at 1. rewrite Hget.
  destruct (negb _); [reflexivity|].
  unfold bind. rewrite list_loop. reflexivity.
Qed.

(** X7. For a registered name whose snapshot's first path has a
    non-empty directory name, [list_files] never raises and changes
    nothing but the output.  It answers with that directory name and one
    entry per snapshot item that [os.stat] accepts (items it rejects are
    left out and reported on the output): the entry carries the item's
    path and stored digest, the path's base name, the size and time of
    the stat, and the extension flag.  [total_files] is the number of
    entries, and the entries are ordered by file name, entries with the
    same file name staying in snapshot order. *)
Theorem list_files_lists_statable_files env dir_name s k h rest :
  dict_get (dir_db s) dir_name = Some ((k, h) :: rest) ->
  dirname k <> "" ->
  exists files,
    list_files env dir_name s
    = (Return (ListOk (dirname k) (List.length files) files),
       printed s (list_log env ((k, h) :: rest)))
    /\ Permutation files (list_details env ((k, h) :: rest))
    /\ Sorted filename_le files
    /\ (forall name,
          filter (fun d => String.eqb (FileDetail.filename d) name) files
          = filter (fun d => String.eqb (FileDetail.filename d) name)
                   (list_details env ((k, h) :: rest)))
    /\ (forall d,
          In d files
          <-> exists filepath filehash file_stats,
                In (filepath, filehash) ((k, h) :: rest)
                /\ stat env filepath = inr file_stats
                /\ d = file_detail filepath filehash file_stats).
Proof.
  intros Hget Hdir.
  exists (Py.sorted FileDetail.filename (list_details env ((k, h) :: rest))).
  pose proof (sorted_perm FileDetail.filename
                (list_details env ((k, h) :: rest))) as Hperm.
  split.
  - rewrite (list_files_spec env dir_name s Hget).
    cbv zeta. cbn [dict_first_key].
    assert (Hk : Py.truthy k = true).
    { destruct k; [|reflexivity]. now rewrite dirname_empty in Hdir. }
    rewrite Hk.
    assert (Hd : Py.truthy (dirname k) = true)
      by (destruct (dirname k); [congruence | reflexivity]).
    rewrite Hd. cbn [negb].
    now rewrite (Permutation_length Hperm).
  - split; [exact Hperm|]. split; [apply sorted_sorted|].
    split; [intros name; apply sorted_stable|].
    intros d. rewrite <- list_details_In.
    split; apply Permutation_in; [exact Hperm | now symmetry].
Qed.

Lemma list_files_lists_statable_files_witness :
  exists files,
    list_files (env_proj_without_b) "proj" state_proj
    = (Return (ListOk "/tmp/proj" (List.length files) files),
       printed state_proj
         (list_log env_proj_without_b
            [("/tmp/proj/a.txt", "x"); ("/tmp/proj/b.bin", "GIF89a")]))
    /\ Permutation files
         (list_details env_proj_without_b
            [("/tmp/proj/a.txt", "x"); ("/tmp/proj/b.bin", "GIF89a")])
    /\ Sorted filename_le files
    /\ (forall name,
          filter (fun d => String.eqb (FileDetail.filename d) name) files
          = filter (fun d => String.eqb (FileDetail.filename d) name)
                   (list_details env_proj_without_b
                      [("/tmp/proj/a.txt", "x"); ("/tmp/proj/b.bin", "GIF89a")]))
    /\ (forall d,
          In d files
          <-> exists filepath filehash file_stats,
                In (filepath, filehash)
                   [("/tmp/proj/a.txt", "x"); ("/tmp/proj/b.bin", "GIF89a")]
                /\ stat env_proj_without_b filepath = inr file_stats
                /\ d = file_detail filepath filehash file_stats).
Proof.
  apply (list_files_lists_statable_files env_proj_without_b "proj" state_proj
           (k := "/tmp/proj/a.txt") (h := "x")
           (rest := [("/tmp/proj/b.bin", "GIF89a")])).
  - reflexivity.
  - discriminate.
Defined.

(** X8. [list_files] takes the directory from the first path of the
    snapshot, so a snapshot whose first path has no separator (a path
    relative to the current directory, as a [verify_changes] of an empty
    snapshot stores them) is answered with the error object "No files
    found in directory" although the snapshot is not empty; nothing is
    raised and no global changes. *)
Theorem list_files_relative_first_path env dir_name s k h rest :
  dict_get (dir_db s) dir_name = Some ((k, h) :: rest) ->
  slash_free k ->
  list_files env dir_name s
  = (Return (ListError "No files found in directory"), s).
Proof.
  intros Hget Hk.
  rewrite (list_files_spec env dir_name s Hget).
  cbv zeta. cbn [dict_first_key].
  rewrite (dirname_slash_free Hk).
  now destruct (Py.truthy k).
Qed.

Lemma list_files_relative_first_path_witness :
  dict_get (dir_db state_relative) "empty" = Some [("notes.txt", "todo")]
  /\ list_files env_empty_root "empty" state_relative
     = (Return (ListError "No files found in directory"), state_relative).
Proof.
  split; [reflexivity|].
  apply (list_files_relative_first_path env_empty_root "empty" state_relative
           (k := "notes.txt") (h := "todo") (rest := [])).
  - reflexivity.
  - unfold slash_free. simpl. intuition discriminate.
Defined.

(** X14. When the first path of the stored snapshot is [root/name], a
    file directly in [root] ([name] without separator, [root] not ending
    in one), [verify_changes] rescans [root]: when [is_file()] raises on
    no entry of the listing of [root], it answers for directory [root]
    and stores the scan of that listing. *)
Theorem verify_rescans_parent_of_first_path
    env dir_name s root root' x name h rest :
  dict_get (dir_db s) dir_name
  = Some ((root ++ "/" ++ name, h)%string :: rest) ->
  slash_free name ->
  root = (root' ++ String x "")%string ->
  x <> sep ->
  listing_ok env (rglob env root) = true ->
  exists r s',
    verify_changes env dir_name s = (Return r, s')
    /\ VerifyResponse.directory r = root
    /\ dict_get (dir_db s') dir_name = Some (scan env (rglob env root) []).
Proof.
  intros Hget Hname Hroot Hx Hok.
  assert (Hdirp : verify_dir_path ((root ++ "/" ++ name, h)%string :: rest)
                  = root).
  { rewrite verify_dir_path_cons.
    apply (@dirname_join root name x root' Hname Hroot Hx). }
  rewrite <- Hdirp in Hok.
  pose proof (verify_changes_spec env dir_name s Hget Hok) as Hv.
  cbv zeta in Hv. rewrite verify_dir_path_cons in Hv.
  rewrite (@dirname_join root name x root' Hname Hroot Hx) in Hv.
  rewrite Hv. eexists _, _. split; [reflexivity|].
  split; [reflexivity | apply dict_get_set_same].
Qed.

Lemma verify_rescans_parent_of_first_path_witness :
  exists r s',
    verify_changes (env_proj "y") "proj" state_proj = (Return r, s')
    /\ VerifyResponse.directory r = "/tmp/proj"
    /\ dict_get (dir_db s') "proj"
       = Some (scan (env_proj "y") (rglob (env_proj "y") "/tmp/proj") []).
Proof.
  apply (@verify_rescans_parent_of_first_path (env_proj "y") "proj" state_proj
           "/tmp/proj" "/tmp/pro" "j"%char "a.txt" "x"
           [("/tmp/proj/b.bin", "GIF89a")]).
  - reflexivity.
  - unfold slash_free. simpl. intuition discriminate.
  - reflexivity.
  - discriminate.
  - reflexivity.
Defined.

(** ** The watcher's entry in the next report *)

Lemma slice_last_ten_snoc {A} (l : list A) (x : A) :
  Py.slice_from (-10) (l ++ [x]) = skipn (List.length l - 9) l ++ [x].
Proof.
  change (-10)%Z with (- Z.of_nat 10)%Z. rewrite slice_from_neg.
  rewrite length_app. cbn [List.length].
  replace (List.length l + 1 - 10) with (List.length l - 9) by lia.
  rewrite skipn_app.
  replace (List.length l - 9 - List.length l) with 0 by lia.
  reflexivity.
Qed.

(** X15. A change the watcher has logged is surfaced by the next
    report.  After [on_modified] has recorded a new fingerprint for a
    file, every [verify_changes] that returns, of any registered name
    and on any file system, returns [recent_changes] ending with
    "MODIFIED: " followed by the file's path, preceded by the last nine
    earlier entries of the log (all of them when there are fewer); and
    it returns when [is_file()] raises on no entry of the listing it
    rescans. *)
Theorem watcher_change_is_surfaced
    env env' filepath s snapshot new_hash dir_name' snapshot' :
  let dir_name := basename (dirname filepath) in
  let event := {| is_directory := false; src_path := filepath |} in
  dict_get (dir_db s) dir_name = Some snapshot ->
  hash_file env filepath = Return new_hash ->
  dict_get snapshot filepath <> Some new_hash ->
  dict_get (dir_db s) dir_name' = Some snapshot' ->
  (forall r s',
      verify_changes env' dir_name' (exec (on_modified env event) s)
      = (Return r, s') ->
      VerifyResponse.recent_changes r
      = skipn (List.length (change_log s) - 9) (change_log s)
        ++ [("MODIFIED: " ++ filepath)%string])
  /\ (forall original,
         dict_get (dir_db (exec (on_modified env event) s)) dir_name'
         = Some original ->
         listing_ok env' (rglob env' (verify_dir_path original)) = true ->
         exists r s',
           verify_changes env' dir_name' (exec (on_modified env event) s)
           = (Return r, s')
           /\ VerifyResponse.recent_changes r
              = skipn (List.length (change_log s) - 9) (change_log s)
                ++ [("MODIFIED: " ++ filepath)%string]).
Proof.
  cbv zeta. intros Hget Hhash Hnew Hget'. unfold exec.
  rewrite on_modified_cases. cbn [is_directory src_path].
  rewrite Hget, Hhash.
  apply get_differs_true in Hnew. rewrite Hnew. cbn [snd].
  match goal with |- context [verify_changes env' dir_name' ?t] =>
    set (s1 := t)
  end.
  assert (Hreg : exists original, dict_get (dir_db s1) dir_name' = Some original).
  { cbn [s1 dir_db].
    destruct (String.eqb_spec dir_name' (basename (dirname filepath)))
      as [->|Hne].
    - rewrite dict_get_set_same. eauto.
    - rewrite dict_get_set_other by assumption. eauto. }
  destruct Hreg as [original Horig]. split.
  - intros r s' Hv.
    pose proof (verify_changes_cases env' dir_name' _ Horig) as Hc.
    cbv zeta in Hc. rewrite Hc in Hv.
    destruct (snd (until_is_file_error env'
                     (rglob env' (verify_dir_path original))));
      [discriminate|].
    inversion Hv; subst. cbn [VerifyResponse.recent_changes s1 change_log].
    apply slice_last_ten_snoc.
  - intros original' Horig' Hok.
    assert (original' = original) by congruence. subst original'.
    pose proof (verify_changes_spec env' dir_name' _ Horig Hok) as Hv.
    cbv zeta in Hv. rewrite Hv. eexists _, _. split; [reflexivity|].
    cbn [VerifyResponse.recent_changes s1 change_log].
    apply slice_last_ten_snoc.
Qed.

Lemma watcher_change_is_surfaced_witness :
  exists r s',
    verify_changes (env_proj "y") "proj"
      (exec (on_modified (env_proj "y")
               {| is_directory := false; src_path := "/tmp/proj/a.txt" |})
            state_busy)
    = (Return r, s')
    /\ VerifyResponse.recent_changes r
       = skipn (List.length (change_log state_busy) - 9) (change_log state_busy)
         ++ ["MODIFIED: /tmp/proj/a.txt"].
Proof.
  apply (proj2 (@watcher_change_is_surfaced (env_proj "y") (env_proj "y")
                  "/tmp/proj/a.txt" state_busy [("/tmp/proj/a.txt", "x")] "y"
                  "proj" [("/tmp/proj/a.txt", "x")]
                  eq_refl eq_refl
                  ltac:(simpl; discriminate) eq_refl)
           [("/tmp/proj/a.txt", "y")]).
  - reflexivity.
  - reflexivity.
Defined.
